(** * padloc, packages/app/src/lib/platform.ts: the MFA flows of [WebPlatform]

    A shallow embedding of [supportsAuthType], the two prepare dispatchers,
    [registerAuthenticator], [getAuthToken] and
    [registerPlatformAuthenticator], with the calls they make to [app.api]
    recorded in a log, followed by the properties of the flows. *)

From Stdlib Require Import Ascii String List Bool PeanoNat ZArith Lia.
Import ListNotations.
Open Scope string_scope.

(** ** Values imported from the other packages *)

(** Modelled from the spec: the enum [AuthType] of [@padloc/core/src/mfa].
    The five members named by platform.ts, and [OtherAuthType] for any
    further member, which both [switch] statements send to [default]. *)
Inductive AuthType :=
| Email
| WebAuthnPlatform
| WebAuthnPortable
| Totp
| OpenID
| OtherAuthType.

Definition AuthType_eqb (a b : AuthType) : bool :=
  match a, b with
  | Email, Email
  | WebAuthnPlatform, WebAuthnPlatform
  | WebAuthnPortable, WebAuthnPortable
  | Totp, Totp
  | OpenID, OpenID
  | OtherAuthType, OtherAuthType => true
  | _, _ => false
  end.

(** Modelled from the spec: the enum [AuthPurpose] of [@padloc/core/src/mfa]
    ("login, sensitive-action confirmation, recovery"). *)
Inductive AuthPurpose :=
| Login
| Recover
| OtherPurpose (name : string).

(** A JavaScript value, for everything platform.ts types as [any]. *)
#[warnings="-register-all"]
Inductive any :=
| JsUndefined
| JsNull
| JsBool (b : bool)
| JsNumber (z : Z)
| JsString (s : string)
| JsObject (fields : list (string * any)).

(** [!v] is [negb (truthy v)]. *)
Definition truthy (v : any) : bool :=
  match v with
  | JsUndefined | JsNull => false
  | JsBool b => b
  | JsNumber z => negb (Z.eqb z 0)
  | JsString s => negb (String.eqb s "")
  | JsObject _ => true
  end.

(** Modelled from the spec: [ErrorCode] of [@padloc/core/src/error]; the two
    codes platform.ts raises itself and the codes of the other packages. *)
Inductive ErrorCode :=
| AUTHENTICATION_FAILED
| NOT_SUPPORTED
| OtherErrorCode (name : string).

(** What a [throw] carries: an [Err] with its code and message (the empty
    string when [new Err] is given no message), or the [TypeError] of a
    property read on [null] or [undefined]. *)
Inductive Thrown :=
| Err (code : ErrorCode) (message : string)
| TypeError (message : string).

(** [v.k] *)
Definition get_property (v : any) (k : string) : Thrown + any :=
  match v with
  | JsUndefined | JsNull => inl (TypeError ("Cannot read properties of null or undefined: " ++ k))
  | JsObject fields =>
      match find (fun kv => String.eqb (fst kv) k) fields with
      | Some kv => inr (snd kv)
      | None => inr JsUndefined
      end
  | _ => inr JsUndefined
  end.

(** The fields [getDeviceInfo] fills in. *)
Record DeviceInfo := {
  platform : string;
  osVersion : string;
  device_id : string;
  appVersion : string;
  manufacturer : string;
  model : string;
  browser : string;
  userAgent : string;
  locale : string;
  description : string
}.

(** The parameter and response classes of [@padloc/core/src/api], with the
    fields platform.ts writes and reads. *)
Record StartRegisterAuthenticatorParams := {
  srp_purposes : list AuthPurpose;
  srp_type : AuthType;
  srp_data : any;
  srp_device : option DeviceInfo
}.

Record StartRegisterAuthenticatorResponse := {
  srr_id : string;
  srr_data : any;
  srr_type : AuthType
}.

Record CompleteRegisterMFAuthenticatorParams := {
  crp_id : string;
  crp_data : any
}.

Record StartAuthRequestParams := {
  sap_email : option string;
  sap_type : option AuthType;
  sap_purpose : AuthPurpose;
  sap_authenticatorId : option string;
  sap_authenticatorIndex : option Z
}.

Record StartAuthRequestResponse := {
  sar_id : string;
  sar_data : any;
  sar_type : AuthType;
  sar_token : string
}.

Record CompleteAuthRequestParams := {
  cap_id : string;
  cap_data : any;
  cap_email : option string
}.

(** Modelled from the spec: what a [completeAuthRequest] call resolves to,
    which section 6 gives as [{token}]. *)
Record CompleteAuthRequestResponse := {
  car_token : string
}.

(** The second argument of [prompt]. *)
Record PromptOptions := {
  opt_title : string;
  opt_placeholder : string;
  opt_confirmLabel : string;
  opt_type : string;
  opt_pattern : string
}.

(** The first argument of [prompt]: a translated text, or the [html]
    template of the TOTP setup with its text, QR-code url and secret. *)
Inductive PromptMessage :=
| TextMessage (text : string)
| TotpSetupMessage (text : string) (url : string) (secret : any).

(** ** The log of Remote Authority calls *)

Inductive ApiCall :=
| StartRegisterAuthenticator (p : StartRegisterAuthenticatorParams)
| CompleteRegisterAuthenticator (p : CompleteRegisterMFAuthenticatorParams)
| DeleteAuthenticator (id : string)
| StartAuthRequest (p : StartAuthRequestParams)
| CompleteAuthRequest (p : CompleteAuthRequestParams).

Definition is_delete (c : ApiCall) : bool :=
  match c with
  | DeleteAuthenticator _ => true
  | _ => false
  end.

Definition is_completeAuthRequest (c : ApiCall) : bool :=
  match c with
  | CompleteAuthRequest _ => true
  | _ => false
  end.

(** ** The collaborators platform.ts imports

    Everything the flows reach outside the class, as functions of a world
    [W] that each asynchronous call may change: [app.api], [webAuthnClient],
    [OpenIDClient], [prompt], [generateURL], [$l] and the [app] singleton. *)
Record External (W : Type) := {
  api_startRegisterAuthenticator :
    StartRegisterAuthenticatorParams -> W -> (Thrown + StartRegisterAuthenticatorResponse) * W;
  api_completeRegisterAuthenticator :
    CompleteRegisterMFAuthenticatorParams -> W -> (Thrown + unit) * W;
  api_deleteAuthenticator : string -> W -> (Thrown + unit) * W;
  api_startAuthRequest :
    StartAuthRequestParams -> W -> (Thrown + StartAuthRequestResponse) * W;
  api_completeAuthRequest :
    CompleteAuthRequestParams -> W -> (Thrown + CompleteAuthRequestResponse) * W;
  webAuthnClient_supportsType : AuthType -> W -> bool;
  webAuthnClient_prepareRegistration : any -> W -> (Thrown + any) * W;
  webAuthnClient_prepareAuthentication : any -> W -> (Thrown + any) * W;
  OpenIDClient_prepareRegistration : any -> W -> (Thrown + any) * W;
  OpenIDClient_prepareAuthentication : any -> W -> (Thrown + any) * W;
  prompt : PromptMessage -> PromptOptions -> W -> (Thrown + any) * W;
  generateURL : any -> string -> Thrown + string;
  translate : string -> string;
  app_account_email : W -> option string;
  app_state_device : W -> DeviceInfo
}.

Arguments api_startRegisterAuthenticator {W}.
Arguments api_completeRegisterAuthenticator {W}.
Arguments api_deleteAuthenticator {W}.
Arguments api_startAuthRequest {W}.
Arguments api_completeAuthRequest {W}.
Arguments webAuthnClient_supportsType {W}.
Arguments webAuthnClient_prepareRegistration {W}.
Arguments webAuthnClient_prepareAuthentication {W}.
Arguments OpenIDClient_prepareRegistration {W}.
Arguments OpenIDClient_prepareAuthentication {W}.
Arguments prompt {W}.
Arguments generateURL {W}.
Arguments translate {W}.
Arguments app_account_email {W}.
Arguments app_state_device {W}.

(** ** Asynchronous code: state and exceptions *)

Record State (W : Type) := {
  world : W;
  calls : list ApiCall
}.

Arguments world {W}.
Arguments calls {W}.

Definition M (W A : Type) : Type := State W -> (Thrown + A) * State W.

Definition ret {W A} (a : A) : M W A := fun s => (inr a, s).

Definition throw {W A} (e : Thrown) : M W A := fun s => (inl e, s).

Definition bind {W A B} (m : M W A) (k : A -> M W B) : M W B :=
  fun s =>
    match m s with
    | (inr a, s') => k a s'
    | (inl e, s') => (inl e, s')
    end.

(** [try { m } catch (e) { h e }] *)
Definition try_catch {W A} (m : M W A) (h : Thrown -> M W A) : M W A :=
  fun s =>
    match m s with
    | (inr a, s') => (inr a, s')
    | (inl e, s') => h e s'
    end.

(** A call that is not to [app.api]: the world moves, the log does not. *)
Definition external {W A} (f : W -> (Thrown + A) * W) : M W A :=
  fun s =>
    let (r, w') := f (world s) in
    (r, {| world := w'; calls := calls s |}).

(** A call to [app.api]: logged, then answered by the authority. *)
Definition remote {W A} (c : ApiCall) (f : W -> (Thrown + A) * W) : M W A :=
  fun s =>
    let (r, w') := f (world s) in
    (r, {| world := w'; calls := (calls s ++ [c])%list |}).

(** A synchronous expression that may throw. *)
Definition lift {W A} (r : Thrown + A) : M W A := fun s => (r, s).

Definition read {W A} (f : W -> A) : M W A := fun s => (inr (f (world s)), s).

Declare Scope js_scope.
Delimit Scope js_scope with js.
Notation "x <- m ;; k" := (bind m (fun x => k))
  (at level 61, m at next level, right associativity) : js_scope.
Notation "m ;;; k" := (bind m (fun _ => k))
  (at level 61, right associativity) : js_scope.
Open Scope js_scope.

(** ** WebPlatform *)

(** The instance fields the flows read. *)
Record Platform := {
  platformAuthType : option AuthType
}.

(** [readonly platformAuthType: AuthType | null = AuthType.WebAuthnPlatform] *)
Definition WebPlatform : Platform :=
  {| platformAuthType := Some WebAuthnPlatform |}.

Record RegisterAuthenticatorArgs := {
  ra_purposes : list AuthPurpose;
  ra_type : AuthType;
  ra_data : any;
  ra_device : option DeviceInfo
}.

Record GetAuthTokenArgs := {
  ga_purpose : AuthPurpose;
  ga_type : option AuthType;
  ga_email : option string;
  ga_authenticatorId : option string;
  ga_authenticatorIndex : option Z
}.

Section WebPlatform.

Context {W : Type} (ext : External W).

Notation "'$l'" := (translate ext).

Definition app_api_startRegisterAuthenticator (p : StartRegisterAuthenticatorParams)
  : M W StartRegisterAuthenticatorResponse :=
  remote (StartRegisterAuthenticator p) (api_startRegisterAuthenticator ext p).

Definition app_api_completeRegisterAuthenticator (p : CompleteRegisterMFAuthenticatorParams)
  : M W unit :=
  remote (CompleteRegisterAuthenticator p) (api_completeRegisterAuthenticator ext p).

Definition app_api_deleteAuthenticator (id : string) : M W unit :=
  remote (DeleteAuthenticator id) (api_deleteAuthenticator ext id).

Definition app_api_startAuthRequest (p : StartAuthRequestParams)
  : M W StartAuthRequestResponse :=
  remote (StartAuthRequest p) (api_startAuthRequest ext p).

Definition app_api_completeAuthRequest (p : CompleteAuthRequestParams)
  : M W CompleteAuthRequestResponse :=
  remote (CompleteAuthRequest p) (api_completeAuthRequest ext p).

(** [supportsAuthType(type)] *)
Definition supportsAuthType (type : AuthType) (w : W) : bool :=
  let types :=
    ([Email; Totp]
       ++ filter (fun t => webAuthnClient_supportsType ext t w)
                 [WebAuthnPlatform; WebAuthnPortable])%list in
  existsb (AuthType_eqb type) types.

(** [code ? { code } : null] *)
Definition code_or_null (code : any) : any :=
  if truthy code then JsObject [("code", code)] else JsNull.

Definition add_method_options : PromptOptions :=
  {| opt_title := $l "Add MFA-Method";
     opt_placeholder := $l "Enter Verification Code";
     opt_confirmLabel := $l "Submit";
     opt_type := "number";
     opt_pattern := "[0-9]*" |}.

(** [_prepareRegisterMFAuthenticator({ data, type })] *)
Definition _prepareRegisterMFAuthenticator (res : StartRegisterAuthenticatorResponse)
  : M W any :=
  let data := srr_data res in
  match srr_type res with
  | WebAuthnPlatform | WebAuthnPortable =>
      external (webAuthnClient_prepareRegistration ext data)
  | Email =>
      code <- external (prompt ext
                (TextMessage
                   ($l "Please enter the confirmation code sent to your email address to proceed!"))
                add_method_options) ;;
      ret (code_or_null code)
  | Totp =>
      secret <- lift (get_property data "secret") ;;
      account <- read (fun w => match app_account_email ext w with
                                | Some e => if String.eqb e "" then "" else e
                                | None => ""
                                end) ;;
      url <- lift (generateURL ext secret account) ;;
      code2 <- external (prompt ext
                 (TotpSetupMessage
                    ($l "Please scan the following qr-code in your authenticator app, then enter the displayed code to confirm!")
                    url secret)
                 add_method_options) ;;
      ret (code_or_null code2)
  | OpenID =>
      (* the console.log of the result leaves no trace in the model *)
      res <- external (OpenIDClient_prepareRegistration ext data) ;;
      ret res
  | OtherAuthType =>
      throw (Err AUTHENTICATION_FAILED ($l "Authentication type not supported!"))
  end.

(** [registerAuthenticator({ purposes, type, data, device })] *)
Definition registerAuthenticator (a : RegisterAuthenticatorArgs) : M W string :=
  res <- app_api_startRegisterAuthenticator
           {| srp_purposes := ra_purposes a;
              srp_type := ra_type a;
              srp_data := ra_data a;
              srp_device := ra_device a |} ;;
  try_catch
    (prepData <- _prepareRegisterMFAuthenticator res ;;
     if negb (truthy prepData)
     then throw (Err AUTHENTICATION_FAILED ($l "Setup Canceled"))
     else
       app_api_completeRegisterAuthenticator
         {| crp_id := srr_id res; crp_data := prepData |} ;;;
       ret (srr_id res))
    (fun e =>
       app_api_deleteAuthenticator (srr_id res) ;;;
       throw e).

(** [_prepareCompleteAuthRequest({ data, type })] *)
Definition _prepareCompleteAuthRequest (res : StartAuthRequestResponse) : M W any :=
  let data := sar_data res in
  match sar_type res with
  | WebAuthnPlatform | WebAuthnPortable =>
      external (webAuthnClient_prepareAuthentication ext data)
  | Email =>
      code <- external (prompt ext
                (TextMessage
                   ($l "Please enter the confirmation code sent to your email address to proceed!"))
                {| opt_title := $l "Email Authentication";
                   opt_placeholder := $l "Enter Verification Code";
                   opt_confirmLabel := $l "Submit";
                   opt_type := "number";
                   opt_pattern := "[0-9]*" |}) ;;
      ret (code_or_null code)
  | Totp =>
      code2 <- external (prompt ext
                 (TextMessage
                    ($l "Please enter the code displayed in your authenticator app to proceed!"))
                 {| opt_title := $l "TOTP Authentication";
                    opt_placeholder := $l "Enter Verification Code";
                    opt_confirmLabel := $l "Submit";
                    opt_type := "number";
                    opt_pattern := "[0-9]*" |}) ;;
      ret (code_or_null code2)
  | OpenID =>
      (* the console.log of the result leaves no trace in the model *)
      res <- external (OpenIDClient_prepareAuthentication ext data) ;;
      ret res
  | OtherAuthType =>
      throw (Err AUTHENTICATION_FAILED ($l "Authentication type not supported!"))
  end.

(** The default [email = app.account?.email] of [getAuthToken]. *)
Definition email_or_account (email : option string) (w : W) : option string :=
  match email with
  | Some e => Some e
  | None => app_account_email ext w
  end.

(** [getAuthToken({ purpose, type, email, authenticatorId, authenticatorIndex })] *)
Definition getAuthToken (a : GetAuthTokenArgs) : M W string :=
  email <- read (email_or_account (ga_email a)) ;;
  res <- app_api_startAuthRequest
           {| sap_email := email;
              sap_type := ga_type a;
              sap_purpose := ga_purpose a;
              sap_authenticatorId := ga_authenticatorId a;
              sap_authenticatorIndex := ga_authenticatorIndex a |} ;;
  data <- _prepareCompleteAuthRequest res ;;
  if negb (truthy data)
  then throw (Err AUTHENTICATION_FAILED ($l "Request was canceled."))
  else
    app_api_completeAuthRequest
      {| cap_id := sar_id res; cap_data := data; cap_email := email |} ;;;
    ret (sar_token res).

(** [supportsPlatformAuthenticator()] *)
Definition supportsPlatformAuthenticator : M W bool :=
  read (supportsAuthType WebAuthnPlatform).

(** [registerPlatformAuthenticator(purposes)] *)
Definition registerPlatformAuthenticator (this : Platform) (purposes : list AuthPurpose)
  : M W string :=
  match platformAuthType this with
  | None => throw (Err NOT_SUPPORTED "")
  | Some type =>
      device <- read (app_state_device ext) ;;
      registerAuthenticator
        {| ra_purposes := purposes;
           ra_type := type;
           ra_data := JsUndefined;
           ra_device := Some device |}
  end.

End WebPlatform.

Arguments app_api_startRegisterAuthenticator {W} ext p s.
Arguments app_api_completeRegisterAuthenticator {W} ext p s.
Arguments app_api_deleteAuthenticator {W} ext id s.
Arguments app_api_startAuthRequest {W} ext p s.
Arguments app_api_completeAuthRequest {W} ext p s.

(** ** Vocabulary of the properties *)

(** The argument [registerAuthenticator] builds for Start. *)
Definition register_params (a : RegisterAuthenticatorArgs) : StartRegisterAuthenticatorParams :=
  {| srp_purposes := ra_purposes a;
     srp_type := ra_type a;
     srp_data := ra_data a;
     srp_device := ra_device a |}.

(** The argument [getAuthToken] builds for Start, in world [w]. *)
Definition auth_params {W} (ext : External W) (a : GetAuthTokenArgs) (w : W)
  : StartAuthRequestParams :=
  {| sap_email := email_or_account ext (ga_email a) w;
     sap_type := ga_type a;
     sap_purpose := ga_purpose a;
     sap_authenticatorId := ga_authenticatorId a;
     sap_authenticatorIndex := ga_authenticatorIndex a |}.

(** The same collaborators on a device with another answer of
    [webAuthnClient.supportsType]. *)
Definition with_supportsType {W} (ext : External W) (f : AuthType -> W -> bool)
  : External W :=
  {| api_startRegisterAuthenticator := api_startRegisterAuthenticator ext;
     api_completeRegisterAuthenticator := api_completeRegisterAuthenticator ext;
     api_deleteAuthenticator := api_deleteAuthenticator ext;
     api_startAuthRequest := api_startAuthRequest ext;
     api_completeAuthRequest := api_completeAuthRequest ext;
     webAuthnClient_supportsType := f;
     webAuthnClient_prepareRegistration := webAuthnClient_prepareRegistration ext;
     webAuthnClient_prepareAuthentication := webAuthnClient_prepareAuthentication ext;
     OpenIDClient_prepareRegistration := OpenIDClient_prepareRegistration ext;
     OpenIDClient_prepareAuthentication := OpenIDClient_prepareAuthentication ext;
     prompt := prompt ext;
     generateURL := generateURL ext;
     translate := translate ext;
     app_account_email := app_account_email ext;
     app_state_device := app_state_device ext |}.

(** After Start answered [res] in state [s1], Prepare throws [e], or Prepare
    hands back data and Complete throws [e]; [s2] is the state at the throw. *)
Definition prepare_or_complete_fails {W} (ext : External W)
           (res : StartRegisterAuthenticatorResponse) (s1 : State W)
           (e : Thrown) (s2 : State W) : Prop :=
  _prepareRegisterMFAuthenticator ext res s1 = (inl e, s2)
  \/ exists prepData s',
       _prepareRegisterMFAuthenticator ext res s1 = (inr prepData, s')
       /\ truthy prepData = true
       /\ app_api_completeRegisterAuthenticator ext
            {| crp_id := srr_id res; crp_data := prepData |} s' = (inl e, s2).

(** What the caller of a failed registration sees once the rollback call
    has answered [r]. *)
Definition after_rollback (e : Thrown) (r : Thrown + unit) : Thrown :=
  match r with
  | inr _ => e
  | inl e' => e'
  end.

(** The calls logged between state [s0] and a later state [sf]. *)
Definition made_since {W} (s0 sf : State W) : list ApiCall :=
  skipn (length (calls s0)) (calls sf).

(** ** Scripted collaborators, for running the flows on concrete inputs *)

Module Scripted.

(** The answers of a stateless world: one per collaborator. *)
Record Script := {
  on_startRegister : Thrown + StartRegisterAuthenticatorResponse;
  on_completeRegister : Thrown + unit;
  on_delete : Thrown + unit;
  on_startAuth : Thrown + StartAuthRequestResponse;
  on_completeAuth : Thrown + CompleteAuthRequestResponse;
  device_supports : AuthType -> bool;
  on_ceremony : Thrown + any;
  on_prompt : Thrown + any
}.

Definition device0 : DeviceInfo :=
  {| platform := "Linux"; osVersion := ""; device_id := ""; appVersion := "";
     manufacturer := ""; model := ""; browser := "Firefox"; userAgent := "";
     locale := "en"; description := "Firefox on Linux" |}.

Definition run (sc : Script) : External unit :=
  {| api_startRegisterAuthenticator := fun _ w => (on_startRegister sc, w);
     api_completeRegisterAuthenticator := fun _ w => (on_completeRegister sc, w);
     api_deleteAuthenticator := fun _ w => (on_delete sc, w);
     api_startAuthRequest := fun _ w => (on_startAuth sc, w);
     api_completeAuthRequest := fun _ w => (on_completeAuth sc, w);
     webAuthnClient_supportsType := fun t _ => device_supports sc t;
     webAuthnClient_prepareRegistration := fun _ w => (on_ceremony sc, w);
     webAuthnClient_prepareAuthentication := fun _ w => (on_ceremony sc, w);
     OpenIDClient_prepareRegistration := fun _ w => (on_ceremony sc, w);
     OpenIDClient_prepareAuthentication := fun _ w => (on_ceremony sc, w);
     prompt := fun _ _ w => (on_prompt sc, w);
     generateURL := fun _ account => inr ("otpauth://totp/" ++ account);
     translate := fun msg => msg;
     app_account_email := fun _ => Some "user@example.com";
     app_state_device := fun _ => device0 |}.

(** The state in which the calls [l] have been made. *)
Definition logged (l : list ApiCall) : State unit := {| world := tt; calls := l |}.

Definition idle : State unit := logged [].

Definition transport_error : Thrown := Err (OtherErrorCode "FAILED_CONNECTION") "offline".
Definition rollback_error : Thrown := Err (OtherErrorCode "SERVER_ERROR") "delete failed".

(** Start answers with a pending registration of the given type, id "abc". *)
Definition pending (type : AuthType) : StartRegisterAuthenticatorResponse :=
  {| srr_id := "abc";
     srr_data := JsObject [("secret", JsString "XYZ")];
     srr_type := type |}.

Definition challenge (type : AuthType) : StartAuthRequestResponse :=
  {| sar_id := "req1"; sar_data := JsObject []; sar_type := type; sar_token := "s" |}.

(** A world in which every collaborator succeeds; the device has no
    WebAuthn support and the user types 123456. *)
Definition all_ok (type : AuthType) : Script :=
  {| on_startRegister := inr (pending type);
     on_completeRegister := inr tt;
     on_delete := inr tt;
     on_startAuth := inr (challenge type);
     on_completeAuth := inr {| car_token := "t" |};
     device_supports := fun _ => false;
     on_ceremony := inr (JsObject [("assertion", JsString "sig")]);
     on_prompt := inr (JsString "123456") |}.

(** As [all_ok], with other answers of complete-registration, of
    delete-authenticator and of the prompt. *)
Definition registering (type : AuthType) (complete del : Thrown + unit)
           (answer : Thrown + any) : Script :=
  {| on_startRegister := inr (pending type);
     on_completeRegister := complete;
     on_delete := del;
     on_startAuth := inr (challenge type);
     on_completeAuth := inr {| car_token := "t" |};
     device_supports := fun _ => false;
     on_ceremony := inr (JsObject [("assertion", JsString "sig")]);
     on_prompt := answer |}.

Definition register_args (type : AuthType) : RegisterAuthenticatorArgs :=
  {| ra_purposes := [Login]; ra_type := type; ra_data := JsUndefined; ra_device := None |}.

Definition token_args (type : option AuthType) : GetAuthTokenArgs :=
  {| ga_purpose := Login; ga_type := type; ga_email := None;
     ga_authenticatorId := None; ga_authenticatorIndex := None |}.

Definition typed_code : any := JsObject [("code", JsString "123456")].

Definition started (type : AuthType) : ApiCall :=
  StartRegisterAuthenticator (register_params (register_args type)).

Definition completing (prepData : any) : ApiCall :=
  CompleteRegisterAuthenticator {| crp_id := "abc"; crp_data := prepData |}.

Definition requested (type : option AuthType) : ApiCall :=
  StartAuthRequest
    {| sap_email := Some "user@example.com"; sap_type := type; sap_purpose := Login;
       sap_authenticatorId := None; sap_authenticatorIndex := None |}.

End Scripted.

(** ** Device information *)

(** [s.replace(" ", "")]: a string pattern replaces its first occurrence
    only, so one space goes and the others stay. *)
Fixpoint replace_space (s : string) : string :=
  match s with
  | EmptyString => EmptyString
  | String c rest =>
      if Ascii.eqb c " "%char then rest else String c (replace_space rest)
  end.

Fixpoint count_spaces (s : string) : nat :=
  match s with
  | EmptyString => 0
  | String c rest => (if Ascii.eqb c " "%char then 1 else 0) + count_spaces rest
  end.

(** [v || d] on a string that may be undefined. *)
Definition or_else (v : option string) (d : string) : string :=
  match v with
  | Some s => if String.eqb s "" then d else s
  | None => d
  end.

(** [v && f(v)] on a string that may be undefined. *)
Definition and_then (v : option string) (f : string -> string) : option string :=
  match v with
  | Some s => if String.eqb s "" then Some s else Some (f s)
  | None => None
  end.

(** The part of [UAParser(...).getResult()] that [getDeviceInfo] reads. *)
Record UAResult := {
  os_name : option string;
  os_version : option string;
  browser_name : option string
}.

(** What [getDeviceInfo] reads from its surroundings: the [browserInfo]
    promise (rejected when the parser chunk cannot be loaded), [navigator],
    [process.env.PL_VERSION], and [$l] with its format arguments. *)
Record Browser := {
  browserInfo : Thrown + UAResult;
  navigator_userAgent : string;
  navigator_language : option string;
  PL_VERSION : option string;
  translate_args : string -> list string -> string
}.

(** [getDeviceInfo()] *)
Definition getDeviceInfo (env : Browser) : Thrown + DeviceInfo :=
  match browserInfo env with
  | inl e => inl e
  | inr ua =>
      let platform := or_else (and_then (os_name ua) replace_space) "" in
      inr {| platform := platform;
             osVersion := or_else (and_then (os_version ua) replace_space) "";
             device_id := "";
             appVersion := or_else (PL_VERSION env) "";
             manufacturer := "";
             model := "";
             browser := or_else (browser_name ua) "";
             userAgent := navigator_userAgent env;
             locale := or_else (navigator_language env) "en";
             description :=
               match browser_name ua with
               | Some name =>
                   if String.eqb name ""
                   then translate_args env "{0} Device" [platform]
                   else translate_args env "{0} on {1}" [name; platform]
               | None => translate_args env "{0} Device" [platform]
               end |}
  end.

(** ** The QR scanner's elements *)

(** The [readyState] of a [MediaStreamTrack]. *)
Inductive TrackState := Live | Ended.

(** A [MediaStream]: the tracks it holds, as indices into the tracks of the
    page. *)
Record MediaStream := {
  getTracks : list nat
}.

Record HTMLVideoElement := {
  srcObject : option MediaStream
}.

Record HTMLCanvasElement := {
  style_display : string
}.

(** The tracks of the page and the two private fields of the scanner, which
    are undefined until [scanQR] has run. *)
Record Scanner := {
  page_tracks : list TrackState;
  _qrVideo : option HTMLVideoElement;
  _qrCanvas : option HTMLCanvasElement
}.

(** [track.stop()] *)
Fixpoint track_stop (tracks : list TrackState) (track : nat) : list TrackState :=
  match tracks, track with
  | [], _ => []
  | _ :: rest, O => Ended :: rest
  | t :: rest, S n => t :: track_stop rest n
  end.

(** [stopScanQR()] *)
Definition stopScanQR (this : Scanner) : (Thrown + unit) * Scanner :=
  let stream :=
    match _qrVideo this with
    | Some video => srcObject video
    | None => None
    end in
  let tracks :=
    match stream with
    | Some stream => fold_left track_stop (getTracks stream) (page_tracks this)
    | None => page_tracks this
    end in
  let video :=
    match _qrVideo this with
    | Some _ => Some {| srcObject := None |}
    | None => None
    end in
  match _qrCanvas this with
  | Some _ =>
      (inr tt,
       {| page_tracks := tracks;
          _qrVideo := video;
          _qrCanvas := Some {| style_display := "none" |} |})
  | None =>
      (inl (TypeError "Cannot read properties of undefined: style"),
       {| page_tracks := tracks; _qrVideo := video; _qrCanvas := None |})
  end.

(** The tracks of the stream the video element shows, if it shows one. *)
Definition scanned_tracks (this : Scanner) : list nat :=
  match _qrVideo this with
  | Some {| srcObject := Some stream |} => getTracks stream
  | _ => []
  end.

(** ** Further vocabulary *)

(** The same collaborators with another [prompt]. *)
Definition with_prompt {W} (ext : External W)
           (p : PromptMessage -> PromptOptions -> W -> (Thrown + any) * W)
  : External W :=
  {| api_startRegisterAuthenticator := api_startRegisterAuthenticator ext;
     api_completeRegisterAuthenticator := api_completeRegisterAuthenticator ext;
     api_deleteAuthenticator := api_deleteAuthenticator ext;
     api_startAuthRequest := api_startAuthRequest ext;
     api_completeAuthRequest := api_completeAuthRequest ext;
     webAuthnClient_supportsType := webAuthnClient_supportsType ext;
     webAuthnClient_prepareRegistration := webAuthnClient_prepareRegistration ext;
     webAuthnClient_prepareAuthentication := webAuthnClient_prepareAuthentication ext;
     OpenIDClient_prepareRegistration := OpenIDClient_prepareRegistration ext;
     OpenIDClient_prepareAuthentication := OpenIDClient_prepareAuthentication ext;
     prompt := p;
     generateURL := generateURL ext;
     translate := translate ext;
     app_account_email := app_account_email ext;
     app_state_device := app_state_device ext |}.

(** The same collaborators with other WebAuthn and OpenID ceremonies. *)
Definition with_ceremonies {W} (ext : External W)
           (c : any -> W -> (Thrown + any) * W) : External W :=
  {| api_startRegisterAuthenticator := api_startRegisterAuthenticator ext;
     api_completeRegisterAuthenticator := api_completeRegisterAuthenticator ext;
     api_deleteAuthenticator := api_deleteAuthenticator ext;
     api_startAuthRequest := api_startAuthRequest ext;
     api_completeAuthRequest := api_completeAuthRequest ext;
     webAuthnClient_supportsType := webAuthnClient_supportsType ext;
     webAuthnClient_prepareRegistration := c;
     webAuthnClient_prepareAuthentication := c;
     OpenIDClient_prepareRegistration := c;
     OpenIDClient_prepareAuthentication := c;
     prompt := prompt ext;
     generateURL := generateURL ext;
     translate := translate ext;
     app_account_email := app_account_email ext;
     app_state_device := app_state_device ext |}.

(** The argument [getAuthToken] builds for Complete, for a flow started in
    world [w] whose Start answered [res] and whose Prepare gave [data]. *)
Definition complete_params {W} (ext : External W) (a : GetAuthTokenArgs) (w : W)
           (res : StartAuthRequestResponse) (data : any) : CompleteAuthRequestParams :=
  {| cap_id := sar_id res;
     cap_data := data;
     cap_email := email_or_account ext (ga_email a) w |}.

Definition is_completeRegister (c : ApiCall) : bool :=
  match c with
  | CompleteRegisterAuthenticator _ => true
  | _ => false
  end.

(** A call of the authentication flow that carries [email]. *)
Definition carries_email (email : option string) (c : ApiCall) : Prop :=
  match c with
  | StartAuthRequest p => sap_email p = email
  | CompleteAuthRequest p => cap_email p = email
  | _ => False
  end.

(** [e] is an [Err] with code NOT_SUPPORTED. *)
Definition is_not_supported (e : Thrown) : bool :=
  match e with
  | Err NOT_SUPPORTED _ => true
  | _ => false
  end.

(** No collaborator of the flows throws NOT_SUPPORTED: not [app.api], not
    the WebAuthn or OpenID client, not [prompt], not [generateURL]. *)
Record no_collaborator_raises_NotSupported {W} (ext : External W) : Prop := {
  quiet_startRegister : forall p w e w',
    api_startRegisterAuthenticator ext p w = (inl e, w') -> is_not_supported e = false;
  quiet_completeRegister : forall p w e w',
    api_completeRegisterAuthenticator ext p w = (inl e, w') -> is_not_supported e = false;
  quiet_delete : forall id w e w',
    api_deleteAuthenticator ext id w = (inl e, w') -> is_not_supported e = false;
  quiet_startAuth : forall p w e w',
    api_startAuthRequest ext p w = (inl e, w') -> is_not_supported e = false;
  quiet_completeAuth : forall p w e w',
    api_completeAuthRequest ext p w = (inl e, w') -> is_not_supported e = false;
  quiet_webAuthn_register : forall data w e w',
    webAuthnClient_prepareRegistration ext data w = (inl e, w') -> is_not_supported e = false;
  quiet_webAuthn_auth : forall data w e w',
    webAuthnClient_prepareAuthentication ext data w = (inl e, w') -> is_not_supported e = false;
  quiet_OpenID_register : forall data w e w',
    OpenIDClient_prepareRegistration ext data w = (inl e, w') -> is_not_supported e = false;
  quiet_OpenID_auth : forall data w e w',
    OpenIDClient_prepareAuthentication ext data w = (inl e, w') -> is_not_supported e = false;
  quiet_prompt : forall message options w e w',
    prompt ext message options w = (inl e, w') -> is_not_supported e = false;
  quiet_generateURL : forall secret account e,
    generateURL ext secret account = inl e -> is_not_supported e = false
}.

(** What [_prepareCompleteAuthRequest] passes to [prompt] for a type: the
    message and the options of its Email and of its Totp branch; the other
    branches show no prompt. *)
Definition auth_prompt {W} (ext : External W) (type : AuthType)
  : option (PromptMessage * PromptOptions) :=
  match type with
  | Email =>
      Some (TextMessage
              (translate ext
                 "Please enter the confirmation code sent to your email address to proceed!"),
            {| opt_title := translate ext "Email Authentication";
               opt_placeholder := translate ext "Enter Verification Code";
               opt_confirmLabel := translate ext "Submit";
               opt_type := "number";
               opt_pattern := "[0-9]*" |})
  | Totp =>
      Some (TextMessage
              (translate ext
                 "Please enter the code displayed in your authenticator app to proceed!"),
            {| opt_title := translate ext "TOTP Authentication";
               opt_placeholder := translate ext "Enter Verification Code";
               opt_confirmLabel := translate ext "Submit";
               opt_type := "number";
               opt_pattern := "[0-9]*" |})
  | _ => None
  end.

(** ** Further scripted worlds *)

Module Cases.
Import Scripted.

Definition ceremony_error : Thrown := Err AUTHENTICATION_FAILED "The operation was aborted".

(** A stateless world given by the answers of Start (both flows), of
    complete-auth-request and of the WebAuthn and OpenID ceremonies; the
    other collaborators succeed and the user types 123456. *)
Definition answering (startRegister : Thrown + StartRegisterAuthenticatorResponse)
           (startAuth : Thrown + StartAuthRequestResponse)
           (completeAuth : Thrown + CompleteAuthRequestResponse)
           (ceremony : Thrown + any) : Script :=
  {| on_startRegister := startRegister;
     on_completeRegister := inr tt;
     on_delete := inr tt;
     on_startAuth := startAuth;
     on_completeAuth := completeAuth;
     device_supports := fun t => AuthType_eqb t WebAuthnPlatform;
     on_ceremony := ceremony;
     on_prompt := inr (JsString "123456") |}.

(** The authority is unreachable. *)
Definition offline : Script :=
  answering (inl transport_error) (inl transport_error) (inl transport_error)
            (inr (JsObject [])).

(** The ceremony of the given type throws. *)
Definition aborted (type : AuthType) : Script :=
  answering (inr (pending type)) (inr (challenge type)) (inr {| car_token := "t" |})
            (inl ceremony_error).

(** The authority rejects the response to the challenge. *)
Definition rejected (type : AuthType) : Script :=
  answering (inr (pending type)) (inr (challenge type))
            (inl (Err AUTHENTICATION_FAILED "Invalid code"))
            (inr (JsObject [("assertion", JsString "sig")])).

(** Start answers a TOTP registration without data. *)
Definition no_data : StartRegisterAuthenticatorResponse :=
  {| srr_id := "abc"; srr_data := JsNull; srr_type := Totp |}.

Definition totp_without_data : Script :=
  answering (inr no_data) (inr (challenge Totp)) (inr {| car_token := "t" |})
            (inr (JsObject [])).

(** The user submits the prompt with nothing typed. *)
Definition empty_answer (type : AuthType) : Script :=
  registering type (inr tt) (inr tt) (inr (JsString "")).

(** Chrome on a Mac, as the parser reports it. *)
Definition chrome_on_mac : Browser :=
  {| browserInfo := inr {| os_name := Some "Mac OS";
                           os_version := Some "10.15.7";
                           browser_name := Some "Chrome" |};
     navigator_userAgent := "Mozilla/5.0";
     navigator_language := None;
     PL_VERSION := Some "4.0.0";
     translate_args := fun msg args => (msg ++ ":" ++ String.concat "," args)%string |}.

(** A parser result with a two-space platform name and no browser. *)
Definition windows_phone : Browser :=
  {| browserInfo := inr {| os_name := Some "Windows Phone OS";
                           os_version := None;
                           browser_name := None |};
     navigator_userAgent := "";
     navigator_language := Some "";
     PL_VERSION := None;
     translate_args := fun msg args => (msg ++ ":" ++ String.concat "," args)%string |}.

(** A scanner showing the camera: track 1 of three is the camera's. *)
Definition scanning : Scanner :=
  {| page_tracks := [Live; Live; Live];
     _qrVideo := Some {| srcObject := Some {| getTracks := [1] |} |};
     _qrCanvas := Some {| style_display := "block" |} |}.

(** A platform on which [scanQR] has never run. *)
Definition never_scanned : Scanner :=
  {| page_tracks := [Live]; _qrVideo := None; _qrCanvas := None |}.

End Cases.

(** ** Running the scenarios of the flows *)

Module Scenarios.
Import Scripted.

(** TOTP setup, the user cancels the prompt: the pending record "abc" is
    deleted and the call rejects with "Setup Canceled". *)
Example totp_setup_canceled :
  registerAuthenticator (run (registering Totp (inr tt) (inr tt) (inr JsNull)))
                        (register_args Totp) idle
  = (inl (Err AUTHENTICATION_FAILED "Setup Canceled"),
     {| world := tt;
        calls := [StartRegisterAuthenticator
                    {| srp_purposes := [Login]; srp_type := Totp;
                       srp_data := JsUndefined; srp_device := None |};
                  DeleteAuthenticator "abc"] |}).
Proof. reflexivity. Qed.

(** Email authentication with no explicit type, the user types 123456. *)
Example email_login :
  getAuthToken (run (all_ok Email)) (token_args None) idle
  = (inr "s",
     {| world := tt;
        calls := [StartAuthRequest
                    {| sap_email := Some "user@example.com"; sap_type := None;
                       sap_purpose := Login; sap_authenticatorId := None;
                       sap_authenticatorIndex := None |};
                  CompleteAuthRequest
                    {| cap_id := "req1";
                       cap_data := JsObject [("code", JsString "123456")];
                       cap_email := Some "user@example.com" |}] |}).
Proof. reflexivity. Qed.

(** A successful OpenID registration. *)
Example openid_registered :
  fst (registerAuthenticator (run (all_ok OpenID)) (register_args OpenID) idle)
  = inr "abc".
Proof. reflexivity. Qed.

End Scenarios.

(** ** The log under the building blocks *)

Section Log.

Context {W : Type} (ext : External W).

Lemma external_calls {A} (f : W -> (Thrown + A) * W) (s : State W) :
  calls (snd (external f s)) = calls s.
Proof. unfold external. destruct (f (world s)). reflexivity. Qed.

Lemma remote_calls {A} (c : ApiCall) (f : W -> (Thrown + A) * W) (s : State W) :
  calls (snd (remote c f s)) = (calls s ++ [c])%list.
Proof. unfold remote. destruct (f (world s)). reflexivity. Qed.

Lemma remote_calls_eq {A} (c : ApiCall) (f : W -> (Thrown + A) * W) s r s' :
  remote c f s = (r, s') -> calls s' = (calls s ++ [c])%list.
Proof. intros H. rewrite <- (remote_calls c f s), H. reflexivity. Qed.

Ltac run_external :=
  repeat match goal with
    | |- context [external ?f ?s] =>
        let r := fresh "r" in
        let w := fresh "w" in
        unfold external; destruct (f (world s)) as [[r | r] w]; simpl
    end.

(** Neither prepare dispatcher calls [app.api]. *)
Lemma prepareRegister_calls res (s : State W) :
  calls (snd (_prepareRegisterMFAuthenticator ext res s)) = calls s.
Proof.
  unfold _prepareRegisterMFAuthenticator.
  destruct (srr_type res); unfold bind, ret, throw, lift, read; simpl;
    try (destruct (get_property (srr_data res) "secret"); simpl; [reflexivity |]);
    try (match goal with
         | |- context [generateURL ext ?a ?b] => destruct (generateURL ext a b); simpl
         end; [reflexivity |]);
    run_external; reflexivity.
Qed.

Lemma prepareAuth_calls res (s : State W) :
  calls (snd (_prepareCompleteAuthRequest ext res s)) = calls s.
Proof.
  unfold _prepareCompleteAuthRequest.
  destruct (sar_type res); unfold bind, ret, throw; simpl;
    run_external; reflexivity.
Qed.

Lemma prepareRegister_calls_eq res (s : State W) r s' :
  _prepareRegisterMFAuthenticator ext res s = (r, s') -> calls s' = calls s.
Proof. intros H. rewrite <- (prepareRegister_calls res s), H. reflexivity. Qed.

Lemma prepareAuth_calls_eq res (s : State W) r s' :
  _prepareCompleteAuthRequest ext res s = (r, s') -> calls s' = calls s.
Proof. intros H. rewrite <- (prepareAuth_calls res s), H. reflexivity. Qed.

End Log.

(** ** The Capability Registry *)

Section Capability.

Context {W : Type} (ext : External W).

Lemma AuthType_eqb_eq (a b : AuthType) : AuthType_eqb a b = true <-> a = b.
Proof. destruct a, b; simpl; split; intros H; try reflexivity; discriminate. Qed.

(** C10. [supportsAuthType(type)] is true exactly for Email, Totp, and the
    WebAuthn type among WebAuthnPlatform and WebAuthnPortable that
    [webAuthnClient.supportsType] accepts.  Email and Totp are supported
    on every device; OpenID is supported on none, although both prepare
    dispatchers have an OpenID branch that runs the OpenID client rather
    than the [default] throw. *)
Theorem supportsAuthType_exactly (type : AuthType) (w : W) :
  (supportsAuthType ext type w = true
   <-> type = Email \/ type = Totp
       \/ ((type = WebAuthnPlatform \/ type = WebAuthnPortable)
           /\ webAuthnClient_supportsType ext type w = true))
  /\ supportsAuthType ext Email w = true
  /\ supportsAuthType ext Totp w = true
  /\ supportsAuthType ext OpenID w = false
  /\ (forall id data s,
        _prepareRegisterMFAuthenticator ext
          {| srr_id := id; srr_data := data; srr_type := OpenID |} s
        = external (OpenIDClient_prepareRegistration ext data) s)
  /\ (forall id data token s,
        _prepareCompleteAuthRequest ext
          {| sar_id := id; sar_data := data; sar_type := OpenID; sar_token := token |} s
        = external (OpenIDClient_prepareAuthentication ext data) s).
Proof.
  repeat split.
  - unfold supportsAuthType; simpl.
    destruct (webAuthnClient_supportsType ext WebAuthnPlatform w) eqn:Hp,
             (webAuthnClient_supportsType ext WebAuthnPortable w) eqn:Hq;
      destruct type; simpl; intros H; try discriminate; auto.
  - unfold supportsAuthType; simpl.
    intros [-> | [-> | [[-> | ->] H]]]; try reflexivity; rewrite H; simpl.
    + reflexivity.
    + destruct (webAuthnClient_supportsType ext WebAuthnPlatform w); reflexivity.
  - unfold supportsAuthType; simpl.
    destruct (webAuthnClient_supportsType ext WebAuthnPlatform w),
             (webAuthnClient_supportsType ext WebAuthnPortable w); reflexivity.
  - intros id data s. unfold _prepareRegisterMFAuthenticator, bind, ret, external; simpl.
    destruct (OpenIDClient_prepareRegistration ext data (world s)) as [[e | v] w']; reflexivity.
  - intros id data token s. unfold _prepareCompleteAuthRequest, bind, ret, external; simpl.
    destruct (OpenIDClient_prepareAuthentication ext data (world s)) as [[e | v] w']; reflexivity.
Qed.

End Capability.

(** ** The Registration Orchestrator *)

Section Registration.

Context {W : Type} (ext : External W).

Notation "'$l'" := (translate ext).

(** The flow after Start, by what Prepare, Complete and the rollback do. *)
Lemma register_start_throws a (s0 : State W) e s1 :
  app_api_startRegisterAuthenticator ext (register_params a) s0 = (inl e, s1) ->
  registerAuthenticator ext a s0 = (inl e, s1).
Proof.
  intros Hstart. unfold registerAuthenticator, bind.
  change (app_api_startRegisterAuthenticator ext
            {| srp_purposes := ra_purposes a; srp_type := ra_type a;
               srp_data := ra_data a; srp_device := ra_device a |} s0)
    with (app_api_startRegisterAuthenticator ext (register_params a) s0).
  rewrite Hstart. reflexivity.
Qed.

Lemma register_completed a (s0 : State W) res s1 prepData s2 s3 :
  app_api_startRegisterAuthenticator ext (register_params a) s0 = (inr res, s1) ->
  _prepareRegisterMFAuthenticator ext res s1 = (inr prepData, s2) ->
  truthy prepData = true ->
  app_api_completeRegisterAuthenticator ext
    {| crp_id := srr_id res; crp_data := prepData |} s2 = (inr tt, s3) ->
  registerAuthenticator ext a s0 = (inr (srr_id res), s3).
Proof.
  intros Hstart Hprep Hdata Hcomplete. unfold registerAuthenticator, bind, try_catch.
  change (app_api_startRegisterAuthenticator ext
            {| srp_purposes := ra_purposes a; srp_type := ra_type a;
               srp_data := ra_data a; srp_device := ra_device a |} s0)
    with (app_api_startRegisterAuthenticator ext (register_params a) s0).
  rewrite Hstart, Hprep, Hdata. simpl. rewrite Hcomplete. reflexivity.
Qed.

Lemma register_canceled a (s0 : State W) res s1 prepData s2 r s3 :
  app_api_startRegisterAuthenticator ext (register_params a) s0 = (inr res, s1) ->
  _prepareRegisterMFAuthenticator ext res s1 = (inr prepData, s2) ->
  truthy prepData = false ->
  app_api_deleteAuthenticator ext (srr_id res) s2 = (r, s3) ->
  registerAuthenticator ext a s0
  = (inl (after_rollback (Err AUTHENTICATION_FAILED ($l "Setup Canceled")) r), s3).
Proof.
  intros Hstart Hprep Hdata Hdelete. unfold registerAuthenticator, bind, try_catch.
  change (app_api_startRegisterAuthenticator ext
            {| srp_purposes := ra_purposes a; srp_type := ra_type a;
               srp_data := ra_data a; srp_device := ra_device a |} s0)
    with (app_api_startRegisterAuthenticator ext (register_params a) s0).
  rewrite Hstart, Hprep, Hdata. simpl. unfold throw at 1. rewrite Hdelete.
  destruct r as [e' | []]; reflexivity.
Qed.

Lemma register_failed a (s0 : State W) res s1 e s2 r s3 :
  app_api_startRegisterAuthenticator ext (register_params a) s0 = (inr res, s1) ->
  prepare_or_complete_fails ext res s1 e s2 ->
  app_api_deleteAuthenticator ext (srr_id res) s2 = (r, s3) ->
  registerAuthenticator ext a s0 = (inl (after_rollback e r), s3).
Proof.
  intros Hstart Hfail Hdelete. unfold registerAuthenticator, bind, try_catch.
  change (app_api_startRegisterAuthenticator ext
            {| srp_purposes := ra_purposes a; srp_type := ra_type a;
               srp_data := ra_data a; srp_device := ra_device a |} s0)
    with (app_api_startRegisterAuthenticator ext (register_params a) s0).
  rewrite Hstart.
  destruct Hfail as [Hprep | (prepData & s' & Hprep & Hdata & Hcomplete)].
  - rewrite Hprep, Hdelete. destruct r as [e' | []]; reflexivity.
  - rewrite Hprep, Hdata. simpl. rewrite Hcomplete, Hdelete.
    destruct r as [e' | []]; reflexivity.
Qed.

(** Every path logs Start first; what follows is Complete and the
    rollback, at most once each. *)
Lemma register_log a (s0 : State W) :
  exists rest,
    calls (snd (registerAuthenticator ext a s0))
    = (calls s0 ++ StartRegisterAuthenticator (register_params a) :: rest)%list.
Proof.
  destruct (app_api_startRegisterAuthenticator ext (register_params a) s0)
    as [[e | res] s1] eqn:Hstart.
  { rewrite (register_start_throws _ _ _ _ Hstart). exists []. simpl.
    apply (remote_calls_eq _ _ _ _ _ Hstart). }
  pose proof (remote_calls_eq _ _ _ _ _ Hstart) as L1.
  destruct (_prepareRegisterMFAuthenticator ext res s1) as [[e | prepData] s2] eqn:Hprep;
    pose proof (prepareRegister_calls_eq _ _ _ _ _ Hprep) as L2.
  - destruct (app_api_deleteAuthenticator ext (srr_id res) s2) as [r s3] eqn:Hdelete.
    rewrite (register_failed _ _ _ _ _ _ _ _ Hstart (or_introl Hprep) Hdelete).
    exists [DeleteAuthenticator (srr_id res)]. simpl.
    rewrite (remote_calls_eq _ _ _ _ _ Hdelete), L2, L1, <- app_assoc. reflexivity.
  - destruct (truthy prepData) eqn:Hdata.
    + destruct (app_api_completeRegisterAuthenticator ext
                  {| crp_id := srr_id res; crp_data := prepData |} s2)
        as [[e | []] s3] eqn:Hcomplete;
        pose proof (remote_calls_eq _ _ _ _ _ Hcomplete) as L3.
      * destruct (app_api_deleteAuthenticator ext (srr_id res) s3) as [r s4] eqn:Hdelete.
        rewrite (register_failed _ _ _ _ _ _ _ _ Hstart
                   (or_intror (ex_intro _ prepData
                      (ex_intro _ s2 (conj Hprep (conj Hdata Hcomplete))))) Hdelete).
        eexists. simpl.
        rewrite (remote_calls_eq _ _ _ _ _ Hdelete), L3, L2, L1, <- !app_assoc.
        reflexivity.
      * rewrite (register_completed _ _ _ _ _ _ _ Hstart Hprep Hdata Hcomplete).
        eexists. simpl. rewrite L3, L2, L1, <- !app_assoc. reflexivity.
    + destruct (app_api_deleteAuthenticator ext (srr_id res) s2) as [r s3] eqn:Hdelete.
      rewrite (register_canceled _ _ _ _ _ _ _ _ Hstart Hprep Hdata Hdelete).
      eexists. simpl.
      rewrite (remote_calls_eq _ _ _ _ _ Hdelete), L2, L1, <- !app_assoc. reflexivity.
Qed.

End Registration.

(** ** The Authentication Orchestrator *)

Section Authentication.

Context {W : Type} (ext : External W).

Notation "'$l'" := (translate ext).

Lemma auth_unfold a (s0 : State W) :
  getAuthToken ext a s0
  = match app_api_startAuthRequest ext (auth_params ext a (world s0)) s0 with
    | (inl e, s1) => (inl e, s1)
    | (inr res, s1) =>
        match _prepareCompleteAuthRequest ext res s1 with
        | (inl e, s2) => (inl e, s2)
        | (inr data, s2) =>
            if truthy data
            then match app_api_completeAuthRequest ext
                         {| cap_id := sar_id res; cap_data := data;
                            cap_email := email_or_account ext (ga_email a) (world s0) |} s2 with
                 | (inl e, s3) => (inl e, s3)
                 | (inr _, s3) => (inr (sar_token res), s3)
                 end
            else (inl (Err AUTHENTICATION_FAILED ($l "Request was canceled.")), s2)
        end
    end.
Proof.
  unfold getAuthToken, bind, read, auth_params. simpl.
  destruct (app_api_startAuthRequest ext _ s0) as [[e | res] s1]; [reflexivity |].
  destruct (_prepareCompleteAuthRequest ext res s1) as [[e | data] s2]; [reflexivity |].
  destruct (truthy data); reflexivity.
Qed.

(** Every path logs Start first; what follows is at most the Complete
    call, and never a rollback. *)
Lemma auth_log a (s0 : State W) :
  exists rest,
    calls (snd (getAuthToken ext a s0))
    = (calls s0 ++ StartAuthRequest (auth_params ext a (world s0)) :: rest)%list
    /\ forallb (fun c => negb (is_delete c)) rest = true.
Proof.
  rewrite auth_unfold.
  destruct (app_api_startAuthRequest ext (auth_params ext a (world s0)) s0)
    as [[e | res] s1] eqn:Hstart;
    pose proof (remote_calls_eq _ _ _ _ _ Hstart) as L1.
  { exists []. split; [exact L1 | reflexivity]. }
  destruct (_prepareCompleteAuthRequest ext res s1) as [[e | data] s2] eqn:Hprep;
    pose proof (prepareAuth_calls_eq _ _ _ _ _ Hprep) as L2.
  { exists []. simpl. rewrite L2, L1. split; reflexivity. }
  destruct (truthy data).
  - destruct (app_api_completeAuthRequest ext _ s2) as [[e | tok] s3] eqn:Hcomplete;
      pose proof (remote_calls_eq _ _ _ _ _ Hcomplete) as L3;
      eexists; simpl; rewrite L3, L2, L1, <- app_assoc; split; reflexivity.
  - exists []. simpl. rewrite L2, L1. split; reflexivity.
Qed.

End Authentication.

(** ** Where the errors of the flows come from *)

Section ErrorOrigin.

Context {W : Type} (ext : External W).

Hypothesis quiet : no_collaborator_raises_NotSupported ext.

Lemma remote_inv {A} (c : ApiCall) (f : W -> (Thrown + A) * W) (s : State W) r s' :
  remote c f s = (r, s') -> f (world s) = (r, world s').
Proof.
  unfold remote. destruct (f (world s)) as [r0 w0]. intros H. inversion H. reflexivity.
Qed.

Lemma external_inv {A} (f : W -> (Thrown + A) * W) (s : State W) r s' :
  external f s = (r, s') -> f (world s) = (r, world s').
Proof.
  unfold external. destruct (f (world s)) as [r0 w0]. intros H. inversion H. reflexivity.
Qed.

(** An error of a prompted branch is an error of [prompt]. *)
Lemma prompted_error message options (s : State W) e s' :
  bind (external (prompt ext message options)) (fun code => ret (code_or_null code)) s
  = (inl e, s') ->
  is_not_supported e = false.
Proof.
  unfold bind, ret.
  destruct (external (prompt ext message options) s) as [[e0 | code] s0] eqn:Hprompt;
    intros H; inversion H; subst.
  apply external_inv in Hprompt. apply (quiet_prompt ext quiet _ _ _ _ _ Hprompt).
Qed.

Lemma prepareRegister_error res (s : State W) e s' :
  _prepareRegisterMFAuthenticator ext res s = (inl e, s') -> is_not_supported e = false.
Proof.
  unfold _prepareRegisterMFAuthenticator. destruct (srr_type res).
  - apply prompted_error.
  - intros H. apply external_inv in H.
    apply (quiet_webAuthn_register ext quiet _ _ _ _ H).
  - intros H. apply external_inv in H.
    apply (quiet_webAuthn_register ext quiet _ _ _ _ H).
  - unfold bind at 1, lift.
    destruct (get_property (srr_data res) "secret") as [e0 | secret] eqn:Hsecret.
    { intros H. inversion H; subst.
      destruct (srr_data res); simpl in Hsecret; try discriminate;
        try (inversion Hsecret; reflexivity).
      destruct (find _ fields); discriminate. }
    unfold bind at 1, read. unfold bind at 1, lift.
    destruct (generateURL ext secret _) as [e0 | url] eqn:Hurl.
    { intros H. inversion H; subst. apply (quiet_generateURL ext quiet _ _ _ Hurl). }
    apply prompted_error.
  - unfold bind, ret.
    destruct (external (OpenIDClient_prepareRegistration ext (srr_data res)) s)
      as [[e0 | v] s0] eqn:Hopenid; intros H; inversion H; subst.
    apply external_inv in Hopenid. apply (quiet_OpenID_register ext quiet _ _ _ _ Hopenid).
  - unfold throw. intros H. inversion H. reflexivity.
Qed.

Lemma prepareAuth_error res (s : State W) e s' :
  _prepareCompleteAuthRequest ext res s = (inl e, s') -> is_not_supported e = false.
Proof.
  unfold _prepareCompleteAuthRequest. destruct (sar_type res).
  - apply prompted_error.
  - intros H. apply external_inv in H. apply (quiet_webAuthn_auth ext quiet _ _ _ _ H).
  - intros H. apply external_inv in H. apply (quiet_webAuthn_auth ext quiet _ _ _ _ H).
  - apply prompted_error.
  - unfold bind, ret.
    destruct (external (OpenIDClient_prepareAuthentication ext (sar_data res)) s)
      as [[e0 | v] s0] eqn:Hopenid; intros H; inversion H; subst.
    apply external_inv in Hopenid. apply (quiet_OpenID_auth ext quiet _ _ _ _ Hopenid).
  - unfold throw. intros H. inversion H. reflexivity.
Qed.

Lemma rollback_error_origin id (s : State W) e r s' :
  is_not_supported e = false ->
  app_api_deleteAuthenticator ext id s = (r, s') ->
  is_not_supported (after_rollback e r) = false.
Proof.
  intros He Hdelete. destruct r as [e' | u]; simpl; [| exact He].
  apply remote_inv in Hdelete. apply (quiet_delete ext quiet _ _ _ _ Hdelete).
Qed.

(** [registerAuthenticator] has no NOT_SUPPORTED of its own. *)
Lemma register_error a (s0 : State W) e :
  fst (registerAuthenticator ext a s0) = inl e -> is_not_supported e = false.
Proof.
  destruct (app_api_startRegisterAuthenticator ext (register_params a) s0)
    as [[e0 | res] s1] eqn:Hstart.
  { rewrite (register_start_throws ext _ _ _ _ Hstart). simpl. intros H. inversion H; subst.
    apply remote_inv in Hstart. apply (quiet_startRegister ext quiet _ _ _ _ Hstart). }
  destruct (_prepareRegisterMFAuthenticator ext res s1) as [[e1 | prepData] s2] eqn:Hprep.
  - destruct (app_api_deleteAuthenticator ext (srr_id res) s2) as [r s3] eqn:Hdelete.
    rewrite (register_failed ext _ _ _ _ _ _ _ _ Hstart (or_introl Hprep) Hdelete). simpl.
    intros H. inversion H; subst.
    apply (rollback_error_origin _ _ _ _ _ (prepareRegister_error _ _ _ _ Hprep) Hdelete).
  - destruct (truthy prepData) eqn:Hdata.
    + destruct (app_api_completeRegisterAuthenticator ext
                  {| crp_id := srr_id res; crp_data := prepData |} s2)
        as [[e2 | []] s3] eqn:Hcomplete.
      * destruct (app_api_deleteAuthenticator ext (srr_id res) s3) as [r s4] eqn:Hdelete.
        rewrite (register_failed ext _ _ _ _ _ _ _ _ Hstart
                   (or_intror (ex_intro _ prepData
                      (ex_intro _ s2 (conj Hprep (conj Hdata Hcomplete))))) Hdelete).
        simpl. intros H. inversion H; subst.
        apply (rollback_error_origin _ _ _ _ _) with (2 := Hdelete).
        apply remote_inv in Hcomplete.
        apply (quiet_completeRegister ext quiet _ _ _ _ Hcomplete).
      * rewrite (register_completed ext _ _ _ _ _ _ _ Hstart Hprep Hdata Hcomplete).
        discriminate.
    + destruct (app_api_deleteAuthenticator ext (srr_id res) s2) as [r s3] eqn:Hdelete.
      rewrite (register_canceled ext _ _ _ _ _ _ _ _ Hstart Hprep Hdata Hdelete). simpl.
      intros H. inversion H; subst.
      apply (rollback_error_origin _ _ _ _ _) with (2 := Hdelete). reflexivity.
Qed.

(** [getAuthToken] has no NOT_SUPPORTED of its own. *)
Lemma auth_error g (s0 : State W) e :
  fst (getAuthToken ext g s0) = inl e -> is_not_supported e = false.
Proof.
  rewrite auth_unfold.
  destruct (app_api_startAuthRequest ext (auth_params ext g (world s0)) s0)
    as [[e0 | res] s1] eqn:Hstart.
  { simpl. intros H. inversion H; subst.
    apply remote_inv in Hstart. apply (quiet_startAuth ext quiet _ _ _ _ Hstart). }
  destruct (_prepareCompleteAuthRequest ext res s1) as [[e1 | data] s2] eqn:Hprep.
  { simpl. intros H. inversion H; subst. apply (prepareAuth_error _ _ _ _ Hprep). }
  destruct (truthy data).
  - destruct (app_api_completeAuthRequest ext _ s2) as [[e2 | completed] s3] eqn:Hcomplete;
      simpl; intros H; inversion H; subst.
    apply remote_inv in Hcomplete. apply (quiet_completeAuth ext quiet _ _ _ _ Hcomplete).
  - simpl. intros H. inversion H. reflexivity.
Qed.

End ErrorOrigin.

(** ** Properties of the registration flow *)

Section RegistrationProperties.

Context {W : Type} (ext : External W).

Notation "'$l'" := (translate ext).

Lemma made_since_app (s0 sf : State W) made :
  calls sf = (calls s0 ++ made)%list -> made_since s0 sf = made.
Proof.
  intros H. unfold made_since. rewrite H, skipn_app, skipn_all, Nat.sub_diag.
  reflexivity.
Qed.


(** C2 (as amended). When Prepare or Complete fails with [e], the rollback
    [deleteAuthenticator(id)] is awaited before [e] is thrown again: the
    caller receives [e] when the rollback call succeeds, and the
    rollback's own error when that call fails. *)
Theorem rollback_outcome a (s0 : State W) res s1 e s2 r s3 :
  app_api_startRegisterAuthenticator ext (register_params a) s0 = (inr res, s1) ->
  prepare_or_complete_fails ext res s1 e s2 ->
  app_api_deleteAuthenticator ext (srr_id res) s2 = (r, s3) ->
  fst (registerAuthenticator ext a s0)
  = match r with
    | inr _ => inl e
    | inl rollback_error => inl rollback_error
    end.
Proof.
  intros Hstart Hfail Hdelete.
  rewrite (register_failed ext _ _ _ _ _ _ _ _ Hstart Hfail Hdelete).
  destruct r; reflexivity.
Qed.

(** C5. When Prepare hands back data and [completeRegisterAuthenticator]
    fails, the flow makes exactly one [deleteAuthenticator] call, with the
    id Start returned: its calls are Start, Complete, Delete(id). *)
Theorem complete_failure_deletes_once a (s0 : State W) res s1 prepData s2 e s3 :
  app_api_startRegisterAuthenticator ext (register_params a) s0 = (inr res, s1) ->
  _prepareRegisterMFAuthenticator ext res s1 = (inr prepData, s2) ->
  truthy prepData = true ->
  app_api_completeRegisterAuthenticator ext
    {| crp_id := srr_id res; crp_data := prepData |} s2 = (inl e, s3) ->
  made_since s0 (snd (registerAuthenticator ext a s0))
  = [StartRegisterAuthenticator (register_params a);
     CompleteRegisterAuthenticator {| crp_id := srr_id res; crp_data := prepData |};
     DeleteAuthenticator (srr_id res)]
  /\ filter is_delete (made_since s0 (snd (registerAuthenticator ext a s0)))
     = [DeleteAuthenticator (srr_id res)].
Proof.
  intros Hstart Hprep Hdata Hcomplete.
  destruct (app_api_deleteAuthenticator ext (srr_id res) s3) as [r s4] eqn:Hdelete.
  rewrite (register_failed ext _ _ _ _ _ _ _ _ Hstart
             (or_intror (ex_intro _ prepData
                (ex_intro _ s2 (conj Hprep (conj Hdata Hcomplete))))) Hdelete).
  simpl.
  assert (L : made_since s0 s4
              = [StartRegisterAuthenticator (register_params a);
                 CompleteRegisterAuthenticator
                   {| crp_id := srr_id res; crp_data := prepData |};
                 DeleteAuthenticator (srr_id res)]).
  { apply made_since_app.
    rewrite (remote_calls_eq _ _ _ _ _ Hdelete), (remote_calls_eq _ _ _ _ _ Hcomplete),
      (prepareRegister_calls_eq _ _ _ _ _ Hprep), (remote_calls_eq _ _ _ _ _ Hstart),
      <- !app_assoc.
    reflexivity. }
  rewrite L. split; reflexivity.
Qed.

(** C6 (as amended). When Prepare hands back nothing (a falsy value, which
    is how a strategy reports that the user gave up), the flow calls
    [deleteAuthenticator] with the id from Start and makes no Complete
    call; if that delete call succeeds the caller gets
    AUTHENTICATION_FAILED with the translation of "Setup Canceled", and
    if it fails the caller gets the delete call's error. *)
Theorem cancel_deletes_and_reports a (s0 : State W) res s1 prepData s2 r s3 :
  app_api_startRegisterAuthenticator ext (register_params a) s0 = (inr res, s1) ->
  _prepareRegisterMFAuthenticator ext res s1 = (inr prepData, s2) ->
  truthy prepData = false ->
  app_api_deleteAuthenticator ext (srr_id res) s2 = (r, s3) ->
  made_since s0 (snd (registerAuthenticator ext a s0))
  = [StartRegisterAuthenticator (register_params a); DeleteAuthenticator (srr_id res)]
  /\ fst (registerAuthenticator ext a s0)
     = match r with
       | inr _ => inl (Err AUTHENTICATION_FAILED ($l "Setup Canceled"))
       | inl rollback_error => inl rollback_error
       end.
Proof.
  intros Hstart Hprep Hdata Hdelete.
  rewrite (register_canceled ext _ _ _ _ _ _ _ _ Hstart Hprep Hdata Hdelete). simpl.
  split.
  - apply made_since_app.
    rewrite (remote_calls_eq _ _ _ _ _ Hdelete),
      (prepareRegister_calls_eq _ _ _ _ _ Hprep), (remote_calls_eq _ _ _ _ _ Hstart),
      <- !app_assoc.
    reflexivity.
  - destruct r; reflexivity.
Qed.

(** C9. A registration that succeeds returns the id that the
    [startRegisterAuthenticator] call of the same flow produced. *)
Theorem registered_id_is_start_id a (s0 : State W) id sf :
  registerAuthenticator ext a s0 = (inr id, sf) ->
  exists res s1,
    app_api_startRegisterAuthenticator ext (register_params a) s0 = (inr res, s1)
    /\ id = srr_id res.
Proof.
  intros Hrun.
  destruct (app_api_startRegisterAuthenticator ext (register_params a) s0)
    as [[e | res] s1] eqn:Hstart.
  { rewrite (register_start_throws ext _ _ _ _ Hstart) in Hrun. discriminate. }
  exists res, s1. split; [reflexivity |].
  destruct (_prepareRegisterMFAuthenticator ext res s1) as [[e | prepData] s2] eqn:Hprep.
  - destruct (app_api_deleteAuthenticator ext (srr_id res) s2) as [r s3] eqn:Hdelete.
    rewrite (register_failed ext _ _ _ _ _ _ _ _ Hstart (or_introl Hprep) Hdelete) in Hrun.
    discriminate.
  - destruct (truthy prepData) eqn:Hdata.
    + destruct (app_api_completeRegisterAuthenticator ext
                  {| crp_id := srr_id res; crp_data := prepData |} s2)
        as [[e | []] s3] eqn:Hcomplete.
      * destruct (app_api_deleteAuthenticator ext (srr_id res) s3) as [r s4] eqn:Hdelete.
        rewrite (register_failed ext _ _ _ _ _ _ _ _ Hstart
                   (or_intror (ex_intro _ prepData
                      (ex_intro _ s2 (conj Hprep (conj Hdata Hcomplete))))) Hdelete) in Hrun.
        discriminate.
      * rewrite (register_completed ext _ _ _ _ _ _ _ Hstart Hprep Hdata Hcomplete) in Hrun.
        congruence.
    + destruct (app_api_deleteAuthenticator ext (srr_id res) s2) as [r s3] eqn:Hdelete.
      rewrite (register_canceled ext _ _ _ _ _ _ _ _ Hstart Hprep Hdata Hdelete) in Hrun.
      discriminate.
Qed.

End RegistrationProperties.

(** ** Properties of the authentication flow *)

Section AuthenticationProperties.

Context {W : Type} (ext : External W).

Notation "'$l'" := (translate ext).

(** C4 (as amended). When the flow reaches Complete and Complete succeeds,
    [getAuthToken] resolves to the [token] field of the response of
    [startAuthRequest], verbatim; what [completeAuthRequest] resolves to
    is dropped. *)
Theorem token_is_the_start_token g (s0 : State W) res s1 data s2 completed s3 :
  app_api_startAuthRequest ext (auth_params ext g (world s0)) s0 = (inr res, s1) ->
  _prepareCompleteAuthRequest ext res s1 = (inr data, s2) ->
  truthy data = true ->
  app_api_completeAuthRequest ext
    {| cap_id := sar_id res; cap_data := data;
       cap_email := email_or_account ext (ga_email g) (world s0) |} s2
  = (inr completed, s3) ->
  getAuthToken ext g s0 = (inr (sar_token res), s3).
Proof.
  intros Hstart Hprep Hdata Hcomplete.
  rewrite auth_unfold, Hstart, Hprep, Hdata, Hcomplete. reflexivity.
Qed.

(** C7. When Prepare hands back nothing (a falsy value), [getAuthToken]
    fails with AUTHENTICATION_FAILED and the translation of "Request was
    canceled."; the only Remote Authority call of the flow is Start: no
    [completeAuthRequest] and no cleanup call follows. *)
Theorem canceled_request_stops_after_start g (s0 : State W) res s1 data s2 :
  app_api_startAuthRequest ext (auth_params ext g (world s0)) s0 = (inr res, s1) ->
  _prepareCompleteAuthRequest ext res s1 = (inr data, s2) ->
  truthy data = false ->
  getAuthToken ext g s0
  = (inl (Err AUTHENTICATION_FAILED ($l "Request was canceled.")), s2)
  /\ made_since s0 (snd (getAuthToken ext g s0))
     = [StartAuthRequest (auth_params ext g (world s0))]
  /\ existsb is_completeAuthRequest (made_since s0 (snd (getAuthToken ext g s0))) = false
  /\ existsb is_delete (made_since s0 (snd (getAuthToken ext g s0))) = false.
Proof.
  intros Hstart Hprep Hdata.
  rewrite auth_unfold, Hstart, Hprep, Hdata. simpl.
  assert (L : made_since s0 s2 = [StartAuthRequest (auth_params ext g (world s0))]).
  { unfold made_since.
    rewrite (prepareAuth_calls_eq _ _ _ _ _ Hprep), (remote_calls_eq _ _ _ _ _ Hstart),
      skipn_app, skipn_all, Nat.sub_diag.
    reflexivity. }
  rewrite L. repeat split.
Qed.

(** C8. Whatever its arguments and however it ends, [getAuthToken] never
    calls [deleteAuthenticator]: the calls it adds to the log contain no
    delete, so the deletes in the log are those that were there before. *)
Theorem authentication_never_deletes g (s : State W) :
  existsb is_delete (made_since s (snd (getAuthToken ext g s))) = false
  /\ filter is_delete (calls (snd (getAuthToken ext g s))) = filter is_delete (calls s).
Proof.
  destruct (auth_log ext g s) as (rest & Hlog & Hrest).
  assert (Hnone : existsb is_delete rest = false).
  { clear Hlog. induction rest as [| c rest IH]; [reflexivity |].
    simpl in *. apply andb_prop in Hrest. destruct Hrest as [Hc Hrest].
    rewrite (IH Hrest). destruct (is_delete c); [discriminate | reflexivity]. }
  split.
  - unfold made_since. rewrite Hlog, skipn_app, skipn_all, Nat.sub_diag. simpl.
    exact Hnone.
  - rewrite Hlog, filter_app. simpl.
    assert (Hfilter : filter is_delete rest = []).
    { clear Hlog Hrest. induction rest as [| c rest IH]; [reflexivity |].
      simpl in *. destruct (is_delete c); [discriminate |]. apply IH, Hnone. }
    rewrite Hfilter. apply app_nil_r.
Qed.

End AuthenticationProperties.

(** ** The platform-authenticator path *)

Section PlatformAuthenticator.

Context {W : Type} (ext : External W).

(** C3 (as amended). [registerPlatformAuthenticator(purposes)] fails with
    NOT_SUPPORTED, without any Remote Authority call, exactly when the
    [platformAuthType] field is null; otherwise it is
    [registerAuthenticator] with that type, no data and [app.state.device],
    so its first act is the Start call.  [WebPlatform] sets the field to
    WebAuthnPlatform, and [supportsAuthType] is not consulted: the outcome
    is the same whatever [webAuthnClient.supportsType] answers. *)
Theorem platform_registration this (purposes : list AuthPurpose) (s : State W) :
  registerPlatformAuthenticator ext this purposes s
  = match platformAuthType this with
    | None => (inl (Err NOT_SUPPORTED ""), s)
    | Some type =>
        registerAuthenticator ext
          {| ra_purposes := purposes; ra_type := type; ra_data := JsUndefined;
             ra_device := Some (app_state_device ext (world s)) |} s
    end
  /\ platformAuthType WebPlatform = Some WebAuthnPlatform
  /\ (exists rest,
        calls (snd (registerPlatformAuthenticator ext WebPlatform purposes s))
        = (calls s
             ++ StartRegisterAuthenticator
                  {| srp_purposes := purposes; srp_type := WebAuthnPlatform;
                     srp_data := JsUndefined;
                     srp_device := Some (app_state_device ext (world s)) |}
             :: rest)%list)
  /\ (forall f,
        registerPlatformAuthenticator (with_supportsType ext f) this purposes s
        = registerPlatformAuthenticator ext this purposes s).
Proof.
  split; [| split; [| split]].
  - unfold registerPlatformAuthenticator. destruct (platformAuthType this); reflexivity.
  - reflexivity.
  - exact (register_log ext
             {| ra_purposes := purposes; ra_type := WebAuthnPlatform;
                ra_data := JsUndefined;
                ra_device := Some (app_state_device ext (world s)) |} s).
  - intros f. reflexivity.
Qed.

End PlatformAuthenticator.

(** ** The properties on concrete flows *)

Import Scripted.



(** C2, as first stated, fails: Complete fails with a transport error, the
    rollback fails too, and the caller receives the rollback's error. *)
Lemma rollback_error_masks_the_cause :
  prepare_or_complete_fails
    (run (registering Email (inl transport_error) (inl rollback_error)
                      (inr (JsString "123456"))))
    (pending Email) (logged [started Email])
    transport_error (logged [started Email; completing typed_code])
  /\ app_api_deleteAuthenticator
       (run (registering Email (inl transport_error) (inl rollback_error)
                         (inr (JsString "123456"))))
       "abc" (logged [started Email; completing typed_code])
     = (inl rollback_error,
        logged [started Email; completing typed_code; DeleteAuthenticator "abc"])
  /\ fst (registerAuthenticator
            (run (registering Email (inl transport_error) (inl rollback_error)
                              (inr (JsString "123456"))))
            (register_args Email) idle)
     = inl rollback_error
  /\ fst (registerAuthenticator
            (run (registering Email (inl transport_error) (inl rollback_error)
                              (inr (JsString "123456"))))
            (register_args Email) idle)
     <> inl transport_error.
Proof.
  split; [| split; [| split]].
  - right. exists typed_code, (logged [started Email]). repeat split.
  - reflexivity.
  - reflexivity.
  - discriminate.
Qed.

Lemma rollback_outcome_witness :
  fst (registerAuthenticator
         (run (registering Email (inl transport_error) (inr tt) (inr (JsString "123456"))))
         (register_args Email) idle)
  = inl transport_error.
Proof.
  apply (rollback_outcome
           (run (registering Email (inl transport_error) (inr tt) (inr (JsString "123456"))))
           (register_args Email) idle (pending Email) (logged [started Email])
           transport_error (logged [started Email; completing typed_code])
           (inr tt)
           (logged [started Email; completing typed_code; DeleteAuthenticator "abc"])).
  - reflexivity.
  - right. exists typed_code, (logged [started Email]). repeat split.
  - reflexivity.
Defined.

(** C3, as first stated, fails: the device reports no platform-biometric
    support, yet the call goes to the authority and registers. *)
Lemma platform_registration_ignores_support :
  fst (supportsPlatformAuthenticator (run (all_ok WebAuthnPlatform)) idle) = inr false
  /\ fst (registerPlatformAuthenticator (run (all_ok WebAuthnPlatform)) WebPlatform [Login] idle)
     = inr "abc"
  /\ (forall msg,
        fst (registerPlatformAuthenticator (run (all_ok WebAuthnPlatform))
               WebPlatform [Login] idle)
        <> inl (Err NOT_SUPPORTED msg))
  /\ made_since idle
       (snd (registerPlatformAuthenticator (run (all_ok WebAuthnPlatform))
               WebPlatform [Login] idle))
     = [StartRegisterAuthenticator
          {| srp_purposes := [Login]; srp_type := WebAuthnPlatform;
             srp_data := JsUndefined; srp_device := Some device0 |};
        completing (JsObject [("assertion", JsString "sig")])].
Proof.
  split; [| split; [| split]]; try reflexivity.
  intros msg. discriminate.
Qed.

(** C4, as first stated, fails: Complete resolves to the token "t" and
    [getAuthToken] resolves to "s", the token of the Start response. *)
Lemma complete_token_is_dropped :
  app_api_completeAuthRequest (run (all_ok Email))
    {| cap_id := "req1"; cap_data := typed_code; cap_email := Some "user@example.com" |}
    (logged [requested None])
  = (inr {| car_token := "t" |},
     logged [requested None;
             CompleteAuthRequest
               {| cap_id := "req1"; cap_data := typed_code;
                  cap_email := Some "user@example.com" |}])
  /\ getAuthToken (run (all_ok Email)) (token_args None) idle
     = (inr "s",
        logged [requested None;
                CompleteAuthRequest
                  {| cap_id := "req1"; cap_data := typed_code;
                     cap_email := Some "user@example.com" |}])
  /\ fst (getAuthToken (run (all_ok Email)) (token_args None) idle) <> inr "t".
Proof.
  split; [| split]; try reflexivity. discriminate.
Qed.

Lemma token_is_the_start_token_witness :
  getAuthToken (run (all_ok Email)) (token_args None) idle
  = (inr "s",
     logged [requested None;
             CompleteAuthRequest
               {| cap_id := "req1"; cap_data := typed_code;
                  cap_email := Some "user@example.com" |}]).
Proof.
  apply (token_is_the_start_token (run (all_ok Email)) (token_args None) idle
           (challenge Email) (logged [requested None])
           typed_code (logged [requested None])
           {| car_token := "t" |}).
  - reflexivity.
  - reflexivity.
  - reflexivity.
  - reflexivity.
Defined.

Lemma complete_failure_deletes_once_witness :
  made_since idle
    (snd (registerAuthenticator
            (run (registering Email (inl transport_error) (inr tt) (inr (JsString "123456"))))
            (register_args Email) idle))
  = [started Email; completing typed_code; DeleteAuthenticator "abc"]
  /\ filter is_delete
       (made_since idle
          (snd (registerAuthenticator
                  (run (registering Email (inl transport_error) (inr tt)
                                    (inr (JsString "123456"))))
                  (register_args Email) idle)))
     = [DeleteAuthenticator "abc"].
Proof.
  apply (complete_failure_deletes_once
           (run (registering Email (inl transport_error) (inr tt) (inr (JsString "123456"))))
           (register_args Email) idle (pending Email) (logged [started Email])
           typed_code (logged [started Email])
           transport_error (logged [started Email; completing typed_code])).
  - reflexivity.
  - reflexivity.
  - reflexivity.
  - reflexivity.
Defined.

(** C6, as first stated, fails: the user cancels the TOTP setup, the delete
    call fails, and the caller receives the delete call's error, which is
    not AUTHENTICATION_FAILED. *)
Lemma canceled_setup_reports_the_rollback_error :
  _prepareRegisterMFAuthenticator
    (run (registering Totp (inr tt) (inl rollback_error) (inr JsNull)))
    (pending Totp) (logged [started Totp])
  = (inr JsNull, logged [started Totp])
  /\ fst (registerAuthenticator
            (run (registering Totp (inr tt) (inl rollback_error) (inr JsNull)))
            (register_args Totp) idle)
     = inl rollback_error
  /\ ~ (exists msg,
          fst (registerAuthenticator
                 (run (registering Totp (inr tt) (inl rollback_error) (inr JsNull)))
                 (register_args Totp) idle)
          = inl (Err AUTHENTICATION_FAILED msg)).
Proof.
  split; [| split]; try reflexivity.
  intros [msg H]. discriminate H.
Qed.

Lemma cancel_deletes_and_reports_witness :
  made_since idle
    (snd (registerAuthenticator
            (run (registering Totp (inr tt) (inr tt) (inr JsNull)))
            (register_args Totp) idle))
  = [started Totp; DeleteAuthenticator "abc"]
  /\ fst (registerAuthenticator
            (run (registering Totp (inr tt) (inr tt) (inr JsNull)))
            (register_args Totp) idle)
     = inl (Err AUTHENTICATION_FAILED "Setup Canceled").
Proof.
  apply (cancel_deletes_and_reports
           (run (registering Totp (inr tt) (inr tt) (inr JsNull)))
           (register_args Totp) idle (pending Totp) (logged [started Totp])
           JsNull (logged [started Totp])
           (inr tt) (logged [started Totp; DeleteAuthenticator "abc"])).
  - reflexivity.
  - reflexivity.
  - reflexivity.
  - reflexivity.
Defined.

Lemma canceled_request_stops_after_start_witness :
  getAuthToken (run (registering Email (inr tt) (inr tt) (inr JsNull)))
               (token_args (Some Email)) idle
  = (inl (Err AUTHENTICATION_FAILED "Request was canceled."),
     logged [requested (Some Email)])
  /\ made_since idle
       (snd (getAuthToken (run (registering Email (inr tt) (inr tt) (inr JsNull)))
                          (token_args (Some Email)) idle))
     = [requested (Some Email)]
  /\ existsb is_completeAuthRequest
       (made_since idle
          (snd (getAuthToken (run (registering Email (inr tt) (inr tt) (inr JsNull)))
                             (token_args (Some Email)) idle)))
     = false
  /\ existsb is_delete
       (made_since idle
          (snd (getAuthToken (run (registering Email (inr tt) (inr tt) (inr JsNull)))
                             (token_args (Some Email)) idle)))
     = false.
Proof.
  apply (canceled_request_stops_after_start
           (run (registering Email (inr tt) (inr tt) (inr JsNull)))
           (token_args (Some Email)) idle (challenge Email)
           (logged [requested (Some Email)]) JsNull (logged [requested (Some Email)])).
  - reflexivity.
  - reflexivity.
  - reflexivity.
Defined.

Lemma registered_id_is_start_id_witness :
  exists res s1,
    app_api_startRegisterAuthenticator (run (all_ok Email))
      (register_params (register_args Email)) idle = (inr res, s1)
    /\ "abc" = srr_id res.
Proof.
  apply (registered_id_is_start_id (run (all_ok Email)) (register_args Email) idle "abc"
           (logged [started Email; completing typed_code])).
  reflexivity.
Defined.

(** ** Further properties of the prepare dispatchers *)

Section Dispatch.

Context {W : Type} (ext : External W).

Notation "'$l'" := (translate ext).

(** X1. Neither prepare dispatcher makes a Remote Authority call, whatever
    the type and however the ceremony or the prompt ends. *)
Theorem prepare_makes_no_api_call
        (reg : StartRegisterAuthenticatorResponse) (req : StartAuthRequestResponse)
        (s : State W) :
  calls (snd (_prepareRegisterMFAuthenticator ext reg s)) = calls s
  /\ calls (snd (_prepareCompleteAuthRequest ext req s)) = calls s.
Proof.
  split.
  - apply prepareRegister_calls.
  - apply prepareAuth_calls.
Qed.

(** X2. For Email and Totp, what the registration dispatcher hands back is
    made from the answer of the prompt it showed with the Add MFA-Method
    options: the object whose only field, code, is that answer when the
    answer is truthy, and null when it is falsy (a dismissed prompt, or
    one submitted empty). *)
Theorem register_prompt_gives_code_or_null res (s : State W) v s' :
  srr_type res = Email \/ srr_type res = Totp ->
  _prepareRegisterMFAuthenticator ext res s = (inr v, s') ->
  exists message answer,
    prompt ext message (add_method_options ext) (world s) = (inr answer, world s')
    /\ v = (if truthy answer then JsObject [("code", answer)] else JsNull).
Proof.
  intros Htype Hrun. unfold _prepareRegisterMFAuthenticator in Hrun.
  destruct Htype as [Htype | Htype]; rewrite Htype in Hrun;
    unfold bind, ret, lift, read, external in Hrun; simpl in Hrun.
  - match type of Hrun with
    | context [prompt ext ?m ?o (world s)] =>
        exists m; destruct (prompt ext m o (world s)) as [[e | code] w'] eqn:Hprompt
    end; inversion Hrun; subst.
    exists code. split; reflexivity.
  - destruct (get_property (srr_data res) "secret") as [e | secret]; [discriminate |].
    destruct (generateURL ext secret _) as [e | url]; [discriminate |].
    match type of Hrun with
    | context [prompt ext ?m ?o (world s)] =>
        exists m; destruct (prompt ext m o (world s)) as [[e | code] w'] eqn:Hprompt
    end; inversion Hrun; subst.
    exists code. split; reflexivity.
Qed.

(** X3. For Email and Totp, what the authentication dispatcher hands back is
    made from the answer of the prompt it showed, with the message and the
    options of that type: the object whose only field, code, is that answer
    when the answer is truthy, and null when it is falsy. *)
Theorem auth_prompt_gives_code_or_null res (s : State W) v s' :
  sar_type res = Email \/ sar_type res = Totp ->
  _prepareCompleteAuthRequest ext res s = (inr v, s') ->
  exists message options answer,
    auth_prompt ext (sar_type res) = Some (message, options)
    /\ prompt ext message options (world s) = (inr answer, world s')
    /\ v = (if truthy answer then JsObject [("code", answer)] else JsNull).
Proof.
  intros Htype Hrun. unfold _prepareCompleteAuthRequest in Hrun.
  destruct Htype as [Htype | Htype]; rewrite Htype in Hrun |- *;
    unfold bind, ret, external in Hrun; simpl in Hrun;
    match type of Hrun with
    | context [prompt ext ?m ?o (world s)] =>
        exists m, o; destruct (prompt ext m o (world s)) as [[e | code] w'] eqn:Hprompt
    end; inversion Hrun; subst;
    exists code; repeat split.
Qed.

(** X4. The dispatchers keep the strategies apart: a type other than Email
    and Totp never reaches the prompt, and Email never reaches the WebAuthn
    or OpenID client. *)
Theorem strategies_are_separate reg req (s : State W) p c :
  srr_type reg <> Email -> srr_type reg <> Totp ->
  sar_type req <> Email -> sar_type req <> Totp ->
  _prepareRegisterMFAuthenticator (with_prompt ext p) reg s
  = _prepareRegisterMFAuthenticator ext reg s
  /\ _prepareCompleteAuthRequest (with_prompt ext p) req s
     = _prepareCompleteAuthRequest ext req s
  /\ (forall id data,
        _prepareRegisterMFAuthenticator (with_ceremonies ext c)
          {| srr_id := id; srr_data := data; srr_type := Email |} s
        = _prepareRegisterMFAuthenticator ext
            {| srr_id := id; srr_data := data; srr_type := Email |} s)
  /\ (forall id data token,
        _prepareCompleteAuthRequest (with_ceremonies ext c)
          {| sar_id := id; sar_data := data; sar_type := Email; sar_token := token |} s
        = _prepareCompleteAuthRequest ext
            {| sar_id := id; sar_data := data; sar_type := Email; sar_token := token |} s).
Proof.
  intros Hr1 Hr2 Ha1 Ha2. split; [| split; [| split]].
  - unfold _prepareRegisterMFAuthenticator.
    destruct (srr_type reg); try reflexivity; contradiction.
  - unfold _prepareCompleteAuthRequest.
    destruct (sar_type req); try reflexivity; contradiction.
  - intros id data. reflexivity.
  - intros id data token. reflexivity.
Qed.

End Dispatch.

(** ** Further properties of the registration flow *)

Section RegistrationPaths.

Context {W : Type} (ext : External W).

Notation "'$l'" := (translate ext).

(** Once Start has answered, the flow takes one of three shapes. *)
Lemma register_after_start a (s0 : State W) res s1 :
  app_api_startRegisterAuthenticator ext (register_params a) s0 = (inr res, s1) ->
  (exists prepData,
      truthy prepData = true
      /\ fst (registerAuthenticator ext a s0) = inr (srr_id res)
      /\ made_since s0 (snd (registerAuthenticator ext a s0))
         = [StartRegisterAuthenticator (register_params a);
            CompleteRegisterAuthenticator
              {| crp_id := srr_id res; crp_data := prepData |}])
  \/ (exists e,
        fst (registerAuthenticator ext a s0) = inl e
        /\ made_since s0 (snd (registerAuthenticator ext a s0))
           = [StartRegisterAuthenticator (register_params a);
              DeleteAuthenticator (srr_id res)])
  \/ (exists e prepData,
        truthy prepData = true
        /\ fst (registerAuthenticator ext a s0) = inl e
        /\ made_since s0 (snd (registerAuthenticator ext a s0))
           = [StartRegisterAuthenticator (register_params a);
              CompleteRegisterAuthenticator
                {| crp_id := srr_id res; crp_data := prepData |};
              DeleteAuthenticator (srr_id res)]).
Proof.
  intros Hstart.
  pose proof (remote_calls_eq _ _ _ _ _ Hstart) as L1.
  destruct (_prepareRegisterMFAuthenticator ext res s1) as [[e | prepData] s2] eqn:Hprep;
    pose proof (prepareRegister_calls_eq _ _ _ _ _ Hprep) as L2.
  - destruct (app_api_deleteAuthenticator ext (srr_id res) s2) as [r s3] eqn:Hdelete.
    right. left. exists (after_rollback e r).
    rewrite (register_failed _ _ _ _ _ _ _ _ _ Hstart (or_introl Hprep) Hdelete).
    split; [reflexivity |]. apply made_since_app. simpl.
    rewrite (remote_calls_eq _ _ _ _ _ Hdelete), L2, L1, <- app_assoc. reflexivity.
  - destruct (truthy prepData) eqn:Hdata.
    + destruct (app_api_completeRegisterAuthenticator ext
                  {| crp_id := srr_id res; crp_data := prepData |} s2)
        as [[e | []] s3] eqn:Hcomplete;
        pose proof (remote_calls_eq _ _ _ _ _ Hcomplete) as L3.
      * destruct (app_api_deleteAuthenticator ext (srr_id res) s3) as [r s4] eqn:Hdelete.
        right. right. exists (after_rollback e r), prepData.
        rewrite (register_failed _ _ _ _ _ _ _ _ _ Hstart
                   (or_intror (ex_intro _ prepData
                      (ex_intro _ s2 (conj Hprep (conj Hdata Hcomplete))))) Hdelete).
        split; [exact Hdata |]. split; [reflexivity |]. apply made_since_app. simpl.
        rewrite (remote_calls_eq _ _ _ _ _ Hdelete), L3, L2, L1, <- !app_assoc.
        reflexivity.
      * left. exists prepData.
        rewrite (register_completed _ _ _ _ _ _ _ _ Hstart Hprep Hdata Hcomplete).
        split; [exact Hdata |]. split; [reflexivity |]. apply made_since_app. simpl.
        rewrite L3, L2, L1, <- !app_assoc. reflexivity.
    + destruct (app_api_deleteAuthenticator ext (srr_id res) s2) as [r s3] eqn:Hdelete.
      right. left. eexists.
      rewrite (register_canceled _ _ _ _ _ _ _ _ _ Hstart Hprep Hdata Hdelete).
      split; [reflexivity |]. apply made_since_app. simpl.
      rewrite (remote_calls_eq _ _ _ _ _ Hdelete), L2, L1, <- !app_assoc. reflexivity.
Qed.

(** X5. When [startRegisterAuthenticator] fails, its error reaches the
    caller as it is and Start is the only call: nothing is rolled back. *)
Theorem start_failure_needs_no_rollback a (s0 : State W) e s1 :
  app_api_startRegisterAuthenticator ext (register_params a) s0 = (inl e, s1) ->
  registerAuthenticator ext a s0 = (inl e, s1)
  /\ made_since s0 s1 = [StartRegisterAuthenticator (register_params a)].
Proof.
  intros Hstart. split.
  - apply register_start_throws, Hstart.
  - apply made_since_app, (remote_calls_eq _ _ _ _ _ Hstart).
Qed.

(** X6. A registration that succeeds has made exactly two calls, Start and
    then Complete; Complete succeeded and carried the id of the Start
    response, which is the id returned, and the truthy data that the
    prepare dispatcher produced; no authenticator was deleted. *)
Theorem success_means_start_then_complete a (s0 : State W) id sf :
  registerAuthenticator ext a s0 = (inr id, sf) ->
  exists res s1 prepData s2,
    app_api_startRegisterAuthenticator ext (register_params a) s0 = (inr res, s1)
    /\ _prepareRegisterMFAuthenticator ext res s1 = (inr prepData, s2)
    /\ truthy prepData = true
    /\ app_api_completeRegisterAuthenticator ext
         {| crp_id := srr_id res; crp_data := prepData |} s2 = (inr tt, sf)
    /\ id = srr_id res
    /\ made_since s0 sf
       = [StartRegisterAuthenticator (register_params a);
          CompleteRegisterAuthenticator {| crp_id := id; crp_data := prepData |}].
Proof.
  intros Hrun.
  destruct (app_api_startRegisterAuthenticator ext (register_params a) s0)
    as [[e | res] s1] eqn:Hstart.
  { rewrite (register_start_throws ext _ _ _ _ Hstart) in Hrun. discriminate. }
  destruct (_prepareRegisterMFAuthenticator ext res s1) as [[e | prepData] s2] eqn:Hprep.
  { destruct (app_api_deleteAuthenticator ext (srr_id res) s2) as [r s3] eqn:Hdelete.
    rewrite (register_failed ext _ _ _ _ _ _ _ _ Hstart (or_introl Hprep) Hdelete) in Hrun.
    discriminate. }
  destruct (truthy prepData) eqn:Hdata.
  - destruct (app_api_completeRegisterAuthenticator ext
                {| crp_id := srr_id res; crp_data := prepData |} s2)
      as [[e | []] s3] eqn:Hcomplete.
    + destruct (app_api_deleteAuthenticator ext (srr_id res) s3) as [r s4] eqn:Hdelete.
      rewrite (register_failed ext _ _ _ _ _ _ _ _ Hstart
                 (or_intror (ex_intro _ prepData
                    (ex_intro _ s2 (conj Hprep (conj Hdata Hcomplete))))) Hdelete) in Hrun.
      discriminate.
    + rewrite (register_completed ext _ _ _ _ _ _ _ Hstart Hprep Hdata Hcomplete) in Hrun.
      inversion Hrun; subst.
      exists res, s1, prepData, s2. repeat split; try assumption.
      apply made_since_app.
      rewrite (remote_calls_eq _ _ _ _ _ Hcomplete),
        (prepareRegister_calls_eq _ _ _ _ _ Hprep), (remote_calls_eq _ _ _ _ _ Hstart),
        <- app_assoc.
      reflexivity.
  - destruct (app_api_deleteAuthenticator ext (srr_id res) s2) as [r s3] eqn:Hdelete.
    rewrite (register_canceled ext _ _ _ _ _ _ _ _ Hstart Hprep Hdata Hdelete) in Hrun.
    discriminate.
Qed.

(** X7. When Prepare throws, Complete is never called: the flow calls
    Start, then deletes the pending authenticator, and the caller receives
    what Prepare threw if the delete call succeeds. *)
Theorem prepare_failure_skips_complete a (s0 : State W) res s1 e s2 r s3 :
  app_api_startRegisterAuthenticator ext (register_params a) s0 = (inr res, s1) ->
  _prepareRegisterMFAuthenticator ext res s1 = (inl e, s2) ->
  app_api_deleteAuthenticator ext (srr_id res) s2 = (r, s3) ->
  registerAuthenticator ext a s0
  = (match r with
     | inr _ => inl e
     | inl rollback_error => inl rollback_error
     end, s3)
  /\ made_since s0 s3
     = [StartRegisterAuthenticator (register_params a); DeleteAuthenticator (srr_id res)].
Proof.
  intros Hstart Hprep Hdelete. split.
  - rewrite (register_failed ext _ _ _ _ _ _ _ _ Hstart (or_introl Hprep) Hdelete).
    destruct r; reflexivity.
  - apply made_since_app.
    rewrite (remote_calls_eq _ _ _ _ _ Hdelete), (prepareRegister_calls_eq _ _ _ _ _ Hprep),
      (remote_calls_eq _ _ _ _ _ Hstart), <- app_assoc.
    reflexivity.
Qed.

(** X8. Once Start has answered with a pending authenticator, the flow
    either succeeds with that id and deletes nothing, or fails after exactly
    one [deleteAuthenticator] call, for that id. *)
Theorem completed_or_rolled_back a (s0 : State W) res s1 :
  app_api_startRegisterAuthenticator ext (register_params a) s0 = (inr res, s1) ->
  match fst (registerAuthenticator ext a s0) with
  | inr id =>
      id = srr_id res
      /\ filter is_delete (made_since s0 (snd (registerAuthenticator ext a s0))) = []
  | inl _ =>
      filter is_delete (made_since s0 (snd (registerAuthenticator ext a s0)))
      = [DeleteAuthenticator (srr_id res)]
  end.
Proof.
  intros Hstart.
  destruct (register_after_start a s0 res s1 Hstart)
    as [(d & _ & Hfst & Hmade) | [(e & Hfst & Hmade) | (e & d & _ & Hfst & Hmade)]];
    rewrite Hfst, Hmade; simpl; auto.
Qed.

(** X9. No registration makes more than three Remote Authority calls:
    Complete is called at most once, Delete at most once, and nothing is
    retried. *)
Theorem registration_calls_are_bounded a (s0 : State W) :
  length (made_since s0 (snd (registerAuthenticator ext a s0))) <= 3
  /\ length (filter is_completeRegister
               (made_since s0 (snd (registerAuthenticator ext a s0)))) <= 1
  /\ length (filter is_delete
               (made_since s0 (snd (registerAuthenticator ext a s0)))) <= 1.
Proof.
  destruct (app_api_startRegisterAuthenticator ext (register_params a) s0)
    as [[e | res] s1] eqn:Hstart.
  - rewrite (register_start_throws ext _ _ _ _ Hstart). simpl.
    rewrite (made_since_app s0 s1 _ (remote_calls_eq _ _ _ _ _ Hstart)). simpl.
    repeat split; repeat constructor.
  - destruct (register_after_start a s0 res s1 Hstart)
      as [(d & _ & _ & Hmade) | [(e & _ & Hmade) | (e & d & _ & _ & Hmade)]];
      rewrite Hmade; simpl; repeat split; repeat constructor.
Qed.

(** X10. When Start answers with a type that has no strategy, nobody is
    prompted: the pending authenticator is deleted and, if that call
    succeeds, the caller gets AUTHENTICATION_FAILED with the translation of
    "Authentication type not supported!". *)
Theorem unknown_type_is_rolled_back a (s0 : State W) res s1 r s3 :
  app_api_startRegisterAuthenticator ext (register_params a) s0 = (inr res, s1) ->
  srr_type res = OtherAuthType ->
  app_api_deleteAuthenticator ext (srr_id res) s1 = (r, s3) ->
  registerAuthenticator ext a s0
  = (match r with
     | inr _ => inl (Err AUTHENTICATION_FAILED ($l "Authentication type not supported!"))
     | inl rollback_error => inl rollback_error
     end, s3)
  /\ made_since s0 s3
     = [StartRegisterAuthenticator (register_params a); DeleteAuthenticator (srr_id res)].
Proof.
  intros Hstart Htype Hdelete.
  assert (Hprep : _prepareRegisterMFAuthenticator ext res s1
                  = (inl (Err AUTHENTICATION_FAILED
                            ($l "Authentication type not supported!")), s1)).
  { unfold _prepareRegisterMFAuthenticator. rewrite Htype. reflexivity. }
  split.
  - rewrite (register_failed ext _ _ _ _ _ _ _ _ Hstart (or_introl Hprep) Hdelete).
    destruct r; reflexivity.
  - apply made_since_app.
    rewrite (remote_calls_eq _ _ _ _ _ Hdelete), (remote_calls_eq _ _ _ _ _ Hstart),
      <- app_assoc.
    reflexivity.
Qed.

(** X11. When Start answers a TOTP registration whose data is null or
    undefined, reading its secret throws a TypeError before any prompt is
    shown; the pending authenticator is deleted and the TypeError reaches
    the caller if the delete call succeeds. *)
Theorem totp_without_data_is_rolled_back a (s0 : State W) res s1 r s3 :
  app_api_startRegisterAuthenticator ext (register_params a) s0 = (inr res, s1) ->
  srr_type res = Totp ->
  srr_data res = JsNull \/ srr_data res = JsUndefined ->
  app_api_deleteAuthenticator ext (srr_id res) s1 = (r, s3) ->
  exists msg,
    registerAuthenticator ext a s0
    = (match r with
       | inr _ => inl (TypeError msg)
       | inl rollback_error => inl rollback_error
       end, s3)
    /\ made_since s0 s3
       = [StartRegisterAuthenticator (register_params a);
          DeleteAuthenticator (srr_id res)].
Proof.
  intros Hstart Htype Hdata Hdelete.
  assert (Hprep : exists msg,
             _prepareRegisterMFAuthenticator ext res s1 = (inl (TypeError msg), s1)).
  { unfold _prepareRegisterMFAuthenticator. rewrite Htype.
    destruct Hdata as [Hdata | Hdata]; rewrite Hdata; eexists; reflexivity. }
  destruct Hprep as [msg Hprep]. exists msg. split.
  - rewrite (register_failed ext _ _ _ _ _ _ _ _ Hstart (or_introl Hprep) Hdelete).
    destruct r; reflexivity.
  - apply made_since_app.
    rewrite (remote_calls_eq _ _ _ _ _ Hdelete), (remote_calls_eq _ _ _ _ _ Hstart),
      <- app_assoc.
    reflexivity.
Qed.

End RegistrationPaths.

(** ** Further properties of the authentication flow *)

Section AuthenticationPaths.

Context {W : Type} (ext : External W).

Notation "'$l'" := (translate ext).

(** X12. When [startAuthRequest] fails, its error reaches the caller as it
    is and Start is the only call. *)
Theorem auth_start_failure_is_surfaced g (s0 : State W) e s1 :
  app_api_startAuthRequest ext (auth_params ext g (world s0)) s0 = (inl e, s1) ->
  getAuthToken ext g s0 = (inl e, s1)
  /\ made_since s0 s1 = [StartAuthRequest (auth_params ext g (world s0))].
Proof.
  intros Hstart. split.
  - rewrite auth_unfold, Hstart. reflexivity.
  - apply made_since_app, (remote_calls_eq _ _ _ _ _ Hstart).
Qed.

(** X13. When Prepare throws, what it threw reaches the caller unchanged and
    Complete is never called. *)
Theorem auth_prepare_failure_is_surfaced g (s0 : State W) res s1 e s2 :
  app_api_startAuthRequest ext (auth_params ext g (world s0)) s0 = (inr res, s1) ->
  _prepareCompleteAuthRequest ext res s1 = (inl e, s2) ->
  getAuthToken ext g s0 = (inl e, s2)
  /\ made_since s0 s2 = [StartAuthRequest (auth_params ext g (world s0))].
Proof.
  intros Hstart Hprep. split.
  - rewrite auth_unfold, Hstart, Hprep. reflexivity.
  - apply made_since_app.
    rewrite (prepareAuth_calls_eq _ _ _ _ _ Hprep). apply (remote_calls_eq _ _ _ _ _ Hstart).
Qed.

(** X14. When [completeAuthRequest] fails, its error reaches the caller as
    it is, no token is returned, and the call is not repeated. *)
Theorem auth_complete_failure_is_surfaced g (s0 : State W) res s1 data s2 e s3 :
  app_api_startAuthRequest ext (auth_params ext g (world s0)) s0 = (inr res, s1) ->
  _prepareCompleteAuthRequest ext res s1 = (inr data, s2) ->
  truthy data = true ->
  app_api_completeAuthRequest ext (complete_params ext g (world s0) res data) s2
  = (inl e, s3) ->
  getAuthToken ext g s0 = (inl e, s3)
  /\ made_since s0 s3
     = [StartAuthRequest (auth_params ext g (world s0));
        CompleteAuthRequest (complete_params ext g (world s0) res data)].
Proof.
  intros Hstart Hprep Hdata Hcomplete. unfold complete_params in *. split.
  - rewrite auth_unfold, Hstart, Hprep, Hdata, Hcomplete. reflexivity.
  - apply made_since_app.
    rewrite (remote_calls_eq _ _ _ _ _ Hcomplete), (prepareAuth_calls_eq _ _ _ _ _ Hprep),
      (remote_calls_eq _ _ _ _ _ Hstart), <- app_assoc.
    reflexivity.
Qed.

(** X15. A token is returned only after [completeAuthRequest] has
    succeeded: a successful [getAuthToken] has made exactly the calls Start
    and Complete, Complete carried the id of the Start response and the
    truthy data Prepare produced, and the token is that of the Start
    response. *)
Theorem token_requires_complete g (s0 : State W) token sf :
  getAuthToken ext g s0 = (inr token, sf) ->
  exists res s1 data s2 completed,
    app_api_startAuthRequest ext (auth_params ext g (world s0)) s0 = (inr res, s1)
    /\ _prepareCompleteAuthRequest ext res s1 = (inr data, s2)
    /\ truthy data = true
    /\ app_api_completeAuthRequest ext (complete_params ext g (world s0) res data) s2
       = (inr completed, sf)
    /\ token = sar_token res
    /\ made_since s0 sf
       = [StartAuthRequest (auth_params ext g (world s0));
          CompleteAuthRequest (complete_params ext g (world s0) res data)].
Proof.
  intros Hrun. rewrite auth_unfold in Hrun. unfold complete_params.
  destruct (app_api_startAuthRequest ext (auth_params ext g (world s0)) s0)
    as [[e | res] s1] eqn:Hstart; [discriminate |].
  destruct (_prepareCompleteAuthRequest ext res s1) as [[e | data] s2] eqn:Hprep;
    [discriminate |].
  destruct (truthy data) eqn:Hdata; [| discriminate].
  destruct (app_api_completeAuthRequest ext _ s2) as [[e | completed] s3] eqn:Hcomplete;
    [discriminate |].
  inversion Hrun; subst.
  exists res, s1, data, s2, completed. repeat split; try assumption.
  apply made_since_app.
  rewrite (remote_calls_eq _ _ _ _ _ Hcomplete), (prepareAuth_calls_eq _ _ _ _ _ Hprep),
    (remote_calls_eq _ _ _ _ _ Hstart), <- app_assoc.
  reflexivity.
Qed.

(** X16. [getAuthToken] makes at most two calls, a Start and then possibly a
    Complete, and both carry the same email: the caller's if one was given,
    else the account's as it was when the flow began. *)
Theorem auth_calls_carry_one_email g (s0 : State W) :
  length (made_since s0 (snd (getAuthToken ext g s0))) <= 2
  /\ Forall (carries_email
               match ga_email g with
               | Some email => Some email
               | None => app_account_email ext (world s0)
               end)
            (made_since s0 (snd (getAuthToken ext g s0))).
Proof.
  rewrite auth_unfold.
  destruct (app_api_startAuthRequest ext (auth_params ext g (world s0)) s0)
    as [[e | res] s1] eqn:Hstart;
    pose proof (remote_calls_eq _ _ _ _ _ Hstart) as L1.
  { simpl. rewrite (made_since_app s0 s1 _ L1). simpl.
    split; [repeat constructor |]. repeat constructor. }
  destruct (_prepareCompleteAuthRequest ext res s1) as [[e | data] s2] eqn:Hprep;
    pose proof (prepareAuth_calls_eq _ _ _ _ _ Hprep) as L2.
  { simpl. rewrite L1 in L2. rewrite (made_since_app s0 s2 _ L2). simpl.
    split; [repeat constructor |]. repeat constructor. }
  destruct (truthy data).
  - destruct (app_api_completeAuthRequest ext _ s2) as [[e | completed] s3] eqn:Hcomplete;
      pose proof (remote_calls_eq _ _ _ _ _ Hcomplete) as L3;
      rewrite L2, L1, <- app_assoc in L3; simpl in L3 |- *;
      rewrite (made_since_app s0 s3 _ L3); simpl;
      (split; [repeat constructor |]); repeat constructor.
  - simpl. rewrite L1 in L2. rewrite (made_since_app s0 s2 _ L2). simpl.
    split; [repeat constructor |]. repeat constructor.
Qed.

(** X17. For Email and Totp, a falsy answer to the prompt the dispatcher
    shows for that type (dismissed, or submitted empty) cancels the
    request: the caller gets AUTHENTICATION_FAILED with the translation of
    "Request was canceled.", and Start stays the only call. *)
Theorem falsy_answer_cancels_request g (s0 : State W) res s1 message options code w2 :
  app_api_startAuthRequest ext (auth_params ext g (world s0)) s0 = (inr res, s1) ->
  auth_prompt ext (sar_type res) = Some (message, options) ->
  prompt ext message options (world s1) = (inr code, w2) ->
  truthy code = false ->
  getAuthToken ext g s0
  = (inl (Err AUTHENTICATION_FAILED ($l "Request was canceled.")),
     {| world := w2;
        calls := (calls s0 ++ [StartAuthRequest (auth_params ext g (world s0))])%list |}).
Proof.
  intros Hstart Hshown Hprompt Hcode.
  assert (Hprep : _prepareCompleteAuthRequest ext res s1
                  = (inr JsNull, {| world := w2; calls := calls s1 |})).
  { unfold _prepareCompleteAuthRequest, bind, ret, external, code_or_null.
    unfold auth_prompt in Hshown.
    destruct (sar_type res); try discriminate; inversion Hshown; subst; simpl;
      rewrite Hprompt, Hcode; reflexivity. }
  rewrite auth_unfold, Hstart, Hprep. simpl.
  rewrite (remote_calls_eq _ _ _ _ _ Hstart). reflexivity.
Qed.

(** X18. When Start answers with a type that has no strategy, the caller
    gets AUTHENTICATION_FAILED with the translation of "Authentication type
    not supported!", nobody is prompted and Complete is not called. *)
Theorem unknown_type_fails_request g (s0 : State W) res s1 :
  app_api_startAuthRequest ext (auth_params ext g (world s0)) s0 = (inr res, s1) ->
  sar_type res = OtherAuthType ->
  getAuthToken ext g s0
  = (inl (Err AUTHENTICATION_FAILED ($l "Authentication type not supported!")), s1)
  /\ made_since s0 s1 = [StartAuthRequest (auth_params ext g (world s0))].
Proof.
  intros Hstart Htype. split.
  - rewrite auth_unfold, Hstart. unfold _prepareCompleteAuthRequest. rewrite Htype.
    reflexivity.
  - apply made_since_app, (remote_calls_eq _ _ _ _ _ Hstart).
Qed.

End AuthenticationPaths.

(** ** Further properties of the platform-authenticator path *)

Section PlatformPaths.

Context {W : Type} (ext : External W).

(** X19. [supportsPlatformAuthenticator()] never rejects and makes no call:
    it resolves to what [webAuthnClient.supportsType] answers for
    WebAuthnPlatform, whatever it answers for the other types. *)
Theorem supportsPlatformAuthenticator_is_webauthn_support (s : State W) :
  supportsPlatformAuthenticator ext s
  = (inr (webAuthnClient_supportsType ext WebAuthnPlatform (world s)), s).
Proof.
  unfold supportsPlatformAuthenticator, read, supportsAuthType. simpl.
  destruct (webAuthnClient_supportsType ext WebAuthnPlatform (world s)),
           (webAuthnClient_supportsType ext WebAuthnPortable (world s)); reflexivity.
Qed.

(** X20. On [WebPlatform], a platform registration that succeeds returns the
    id of a Start call made for WebAuthnPlatform with [app.state.device] as
    it was when the call began, and has deleted nothing. *)
Theorem platform_registration_returns_start_id purposes (s0 : State W) id sf :
  registerPlatformAuthenticator ext WebPlatform purposes s0 = (inr id, sf) ->
  exists res s1,
    app_api_startRegisterAuthenticator ext
      {| srp_purposes := purposes; srp_type := WebAuthnPlatform;
         srp_data := JsUndefined;
         srp_device := Some (app_state_device ext (world s0)) |} s0
    = (inr res, s1)
    /\ id = srr_id res
    /\ filter is_delete (made_since s0 sf) = [].
Proof.
  intros Hrun.
  change (registerPlatformAuthenticator ext WebPlatform purposes s0)
    with (registerAuthenticator ext
            {| ra_purposes := purposes; ra_type := WebAuthnPlatform;
               ra_data := JsUndefined;
               ra_device := Some (app_state_device ext (world s0)) |} s0) in Hrun.
  set (a := {| ra_purposes := purposes; ra_type := WebAuthnPlatform;
               ra_data := JsUndefined;
               ra_device := Some (app_state_device ext (world s0)) |}) in *.
  change {| srp_purposes := purposes; srp_type := WebAuthnPlatform;
            srp_data := JsUndefined;
            srp_device := Some (app_state_device ext (world s0)) |}
    with (register_params a).
  destruct (app_api_startRegisterAuthenticator ext (register_params a) s0)
    as [[e | res] s1] eqn:Hstart.
  { rewrite (register_start_throws ext _ _ _ _ Hstart) in Hrun. discriminate. }
  exists res, s1. split; [reflexivity |].
  destruct (register_after_start ext a s0 res s1 Hstart)
    as [(d & _ & Hfst & Hmade) | [(e & Hfst & _) | (e & d & _ & Hfst & _)]];
    rewrite Hrun in *; simpl in *; try discriminate.
  inversion Hfst; subst. rewrite Hmade. split; reflexivity.
Qed.

End PlatformPaths.

(** ** Properties of the device information *)

Section DeviceInformation.

Lemma replace_space_count (s : string) :
  count_spaces (replace_space s) = pred (count_spaces s).
Proof.
  induction s as [| c rest IH]; [reflexivity |].
  simpl. destruct (Ascii.eqb c " ") eqn:Hc; simpl; [reflexivity |].
  rewrite Hc. exact IH.
Qed.

Lemma replace_space_first (a b : string) :
  count_spaces a = 0 -> replace_space (a ++ String " " b) = (a ++ b)%string.
Proof.
  induction a as [| c rest IH]; simpl; [reflexivity |].
  destruct (Ascii.eqb c " "); simpl; [discriminate |].
  intros H. rewrite (IH H). reflexivity.
Qed.

(** The two [(v && v.replace(" ", "")) || ""] of [getDeviceInfo]. *)
Lemma stripped_or_empty (v : option string) :
  or_else (and_then v replace_space) "" = replace_space (or_else v "").
Proof.
  destruct v as [s |]; [| reflexivity].
  unfold and_then, or_else. destruct (String.eqb s "") eqn:Hs.
  - rewrite Hs. reflexivity.
  - destruct (String.eqb (replace_space s) "") eqn:Hr; [| reflexivity].
    apply String.eqb_eq in Hr. rewrite Hr. reflexivity.
Qed.


(** X22. The space that goes is the first one: for a platform name
    [a ++ " " ++ b] with no space in [a], the platform of the device
    information is [a ++ b]. *)
Theorem device_platform_joins_at_first_space (env : Browser) (ua : UAResult) (a b : string) :
  browserInfo env = inr ua ->
  os_name ua = Some (a ++ String " " b)%string ->
  count_spaces a = 0 ->
  exists info, getDeviceInfo env = inr info /\ platform info = (a ++ b)%string.
Proof.
  intros Hinfo Hname Ha. unfold getDeviceInfo. rewrite Hinfo.
  eexists. split; [reflexivity |]. simpl.
  rewrite stripped_or_empty, Hname.
  assert (Hne : String.eqb (a ++ String " " b) "" = false).
  { destruct a; reflexivity. }
  unfold or_else. rewrite Hne. apply replace_space_first, Ha.
Qed.

(** X23. The device information a browser produces never has an empty
    locale (it falls back to en), and its id, manufacturer and model are
    always empty. *)
Theorem device_info_has_a_locale (env : Browser) (info : DeviceInfo) :
  getDeviceInfo env = inr info ->
  locale info <> ""
  /\ (navigator_language env = None \/ navigator_language env = Some "" ->
      locale info = "en")
  /\ device_id info = "" /\ manufacturer info = "" /\ model info = "".
Proof.
  unfold getDeviceInfo. destruct (browserInfo env) as [e | ua]; [discriminate |].
  intros H. inversion H; subst; clear H. simpl.
  split; [| split; [| repeat split]].
  - unfold or_else. destruct (navigator_language env) as [l |]; [| discriminate].
    destruct (String.eqb l "") eqn:Hl; [discriminate |].
    apply String.eqb_neq, Hl.
  - intros [Hl | Hl]; rewrite Hl; reflexivity.
Qed.

(** X24. The description is built from the fields that are returned: the
    "{0} on {1}" text of browser and platform when the browser is known,
    the "{0} Device" text of the platform when it is not. *)
Theorem device_description_matches_fields (env : Browser) (info : DeviceInfo) :
  getDeviceInfo env = inr info ->
  description info
  = if String.eqb (browser info) ""
    then translate_args env "{0} Device" [platform info]
    else translate_args env "{0} on {1}" [browser info; platform info].
Proof.
  unfold getDeviceInfo. destruct (browserInfo env) as [e | ua]; [discriminate |].
  intros H. inversion H; subst; clear H. simpl.
  destruct (browser_name ua) as [name |]; [| reflexivity].
  unfold or_else. destruct (String.eqb name "") eqn:Hname; [reflexivity |].
  rewrite Hname. reflexivity.
Qed.

End DeviceInformation.

(** ** Properties of the QR scanner *)

Section Scanner.

Lemma track_stop_same (tracks : list TrackState) (t : nat) :
  t < length tracks -> nth_error (track_stop tracks t) t = Some Ended.
Proof.
  revert t. induction tracks as [| x rest IH]; intros [| t] H; simpl in *; try lia.
  - reflexivity.
  - apply IH. lia.
Qed.

Lemma track_stop_other (tracks : list TrackState) (t i : nat) :
  i <> t -> nth_error (track_stop tracks t) i = nth_error tracks i.
Proof.
  revert t i. induction tracks as [| x rest IH]; intros [| t] [| i] H; simpl;
    try reflexivity; try congruence.
  apply IH. congruence.
Qed.

Lemma track_stop_ended (tracks : list TrackState) (t i : nat) :
  nth_error tracks i = Some Ended -> nth_error (track_stop tracks t) i = Some Ended.
Proof.
  intros H. destruct (Nat.eq_dec i t) as [-> | Hne].
  - apply track_stop_same, nth_error_Some. congruence.
  - rewrite track_stop_other; assumption.
Qed.

Lemma track_stop_length (tracks : list TrackState) (t : nat) :
  length (track_stop tracks t) = length tracks.
Proof.
  revert t. induction tracks as [| x rest IH]; intros [| t]; simpl; try reflexivity.
  rewrite IH. reflexivity.
Qed.

Lemma stop_all_ended (stream : list nat) (tracks : list TrackState) (i : nat) :
  nth_error tracks i = Some Ended ->
  nth_error (fold_left track_stop stream tracks) i = Some Ended.
Proof.
  revert tracks. induction stream as [| t rest IH]; intros tracks H; simpl; [exact H |].
  apply IH, track_stop_ended, H.
Qed.

Lemma stop_all_in (stream : list nat) (tracks : list TrackState) (t : nat) :
  In t stream -> t < length tracks ->
  nth_error (fold_left track_stop stream tracks) t = Some Ended.
Proof.
  revert tracks. induction stream as [| u rest IH]; intros tracks Hin Hlt; simpl in *;
    [contradiction |].
  destruct Hin as [-> | Hin].
  - apply stop_all_ended, track_stop_same, Hlt.
  - apply IH; [exact Hin |]. rewrite track_stop_length. exact Hlt.
Qed.

Lemma stop_all_other (stream : list nat) (tracks : list TrackState) (i : nat) :
  ~ In i stream ->
  nth_error (fold_left track_stop stream tracks) i = nth_error tracks i.
Proof.
  revert tracks. induction stream as [| u rest IH]; intros tracks Hin; simpl in *;
    [reflexivity |].
  rewrite IH by tauto. apply track_stop_other. intros ->. tauto.
Qed.

Lemma stopScanQR_tracks (this : Scanner) :
  page_tracks (snd (stopScanQR this))
  = fold_left track_stop (scanned_tracks this) (page_tracks this).
Proof.
  unfold stopScanQR, scanned_tracks.
  destruct (_qrVideo this) as [[[stream |]] |], (_qrCanvas this); reflexivity.
Qed.

(** X25. When the scanner's canvas exists, [stopScanQR] resolves, and
    afterwards every track of the stream the video element was showing has
    ended, the video element shows no stream, and the canvas is hidden. *)
Theorem stopScanQR_releases_the_camera (this : Scanner) (canvas : HTMLCanvasElement) :
  _qrCanvas this = Some canvas ->
  Forall (fun t => t < length (page_tracks this)) (scanned_tracks this) ->
  fst (stopScanQR this) = inr tt
  /\ Forall (fun t => nth_error (page_tracks (snd (stopScanQR this))) t = Some Ended)
            (scanned_tracks this)
  /\ scanned_tracks (snd (stopScanQR this)) = []
  /\ _qrCanvas (snd (stopScanQR this)) = Some {| style_display := "none" |}.
Proof.
  intros Hcanvas Hvalid. split; [| split; [| split]].
  - unfold stopScanQR. rewrite Hcanvas. reflexivity.
  - rewrite stopScanQR_tracks. apply Forall_forall. intros t Hin.
    apply stop_all_in; [exact Hin |].
    apply (proj1 (Forall_forall _ _) Hvalid t Hin).
  - unfold stopScanQR, scanned_tracks. rewrite Hcanvas.
    destruct (_qrVideo this); reflexivity.
  - unfold stopScanQR. rewrite Hcanvas. reflexivity.
Qed.

(** X26. [stopScanQR] touches no track outside the stream the video element
    was showing: such a track keeps the state it had. *)
Theorem stopScanQR_leaves_other_tracks (this : Scanner) (i : nat) :
  ~ In i (scanned_tracks this) ->
  nth_error (page_tracks (snd (stopScanQR this))) i = nth_error (page_tracks this) i.
Proof.
  intros Hout. rewrite stopScanQR_tracks. apply stop_all_other, Hout.
Qed.

(** X27. On a platform whose canvas does not exist yet (no [scanQR] has
    run), [stopScanQR] rejects with a TypeError; the throw is its last
    statement, so a stream the video element was showing is stopped and
    detached all the same. *)
Theorem stopScanQR_before_scanQR_throws (this : Scanner) :
  _qrCanvas this = None ->
  (exists msg, fst (stopScanQR this) = inl (TypeError msg))
  /\ scanned_tracks (snd (stopScanQR this)) = []
  /\ page_tracks (snd (stopScanQR this))
     = fold_left track_stop (scanned_tracks this) (page_tracks this).
Proof.
  intros Hcanvas. split; [| split].
  - unfold stopScanQR. rewrite Hcanvas. eexists. reflexivity.
  - unfold stopScanQR, scanned_tracks. rewrite Hcanvas.
    destruct (_qrVideo this); reflexivity.
  - apply stopScanQR_tracks.
Qed.

(** X28. Stopping twice is the same as stopping once: the second call finds
    no stream and changes nothing. *)
Theorem stopScanQR_twice (this : Scanner) :
  stopScanQR (snd (stopScanQR this)) = stopScanQR this.
Proof.
  unfold stopScanQR.
  destruct (_qrVideo this) as [[[stream |]] |], (_qrCanvas this); reflexivity.
Qed.

End Scanner.

(** ** The further properties on concrete flows *)

Import Cases.

Lemma register_prompt_gives_code_or_null_witness :
  exists message answer,
    prompt (run (all_ok Email)) message (add_method_options (run (all_ok Email)))
           (world idle)
    = (inr answer, world idle)
    /\ typed_code = (if truthy answer then JsObject [("code", answer)] else JsNull).
Proof.
  apply (register_prompt_gives_code_or_null (run (all_ok Email)) (pending Email) idle
           typed_code idle).
  - left. reflexivity.
  - reflexivity.
Defined.

Lemma auth_prompt_gives_code_or_null_witness :
  exists message options answer,
    auth_prompt (run (empty_answer Totp)) (sar_type (challenge Totp))
    = Some (message, options)
    /\ prompt (run (empty_answer Totp)) message options (world idle)
       = (inr answer, world idle)
    /\ JsNull = (if truthy answer then JsObject [("code", answer)] else JsNull).
Proof.
  apply (auth_prompt_gives_code_or_null (run (empty_answer Totp)) (challenge Totp) idle
           JsNull idle).
  - right. reflexivity.
  - reflexivity.
Defined.

Lemma strategies_are_separate_witness :
  _prepareRegisterMFAuthenticator
    (with_prompt (run (all_ok OpenID)) (fun _ _ w => (inl transport_error, w)))
    (pending OpenID) idle
  = _prepareRegisterMFAuthenticator (run (all_ok OpenID)) (pending OpenID) idle.
Proof.
  apply (strategies_are_separate (run (all_ok OpenID)) (pending OpenID)
           (challenge WebAuthnPlatform) idle
           (fun _ _ w => (inl transport_error, w))
           (fun _ w => (inl ceremony_error, w))).
  - discriminate.
  - discriminate.
  - discriminate.
  - discriminate.
Defined.

Lemma start_failure_needs_no_rollback_witness :
  registerAuthenticator (run offline) (register_args Email) idle
  = (inl transport_error, logged [started Email])
  /\ made_since idle (logged [started Email]) = [started Email].
Proof.
  apply (start_failure_needs_no_rollback (run offline) (register_args Email) idle
           transport_error (logged [started Email])).
  reflexivity.
Defined.

Lemma success_means_start_then_complete_witness :
  exists res s1 prepData s2,
    app_api_startRegisterAuthenticator (run (all_ok Email))
      (register_params (register_args Email)) idle = (inr res, s1)
    /\ _prepareRegisterMFAuthenticator (run (all_ok Email)) res s1 = (inr prepData, s2)
    /\ truthy prepData = true
    /\ app_api_completeRegisterAuthenticator (run (all_ok Email))
         {| crp_id := srr_id res; crp_data := prepData |} s2
       = (inr tt, logged [started Email; completing typed_code])
    /\ "abc" = srr_id res
    /\ made_since idle (logged [started Email; completing typed_code])
       = [started Email;
          CompleteRegisterAuthenticator {| crp_id := "abc"; crp_data := prepData |}].
Proof.
  apply (success_means_start_then_complete (run (all_ok Email)) (register_args Email) idle
           "abc" (logged [started Email; completing typed_code])).
  reflexivity.
Defined.

Lemma prepare_failure_skips_complete_witness :
  registerAuthenticator (run (aborted WebAuthnPlatform)) (register_args WebAuthnPlatform) idle
  = (inl ceremony_error,
     logged [started WebAuthnPlatform; DeleteAuthenticator "abc"])
  /\ made_since idle (logged [started WebAuthnPlatform; DeleteAuthenticator "abc"])
     = [started WebAuthnPlatform; DeleteAuthenticator "abc"].
Proof.
  apply (prepare_failure_skips_complete (run (aborted WebAuthnPlatform))
           (register_args WebAuthnPlatform) idle (pending WebAuthnPlatform)
           (logged [started WebAuthnPlatform]) ceremony_error
           (logged [started WebAuthnPlatform]) (inr tt)
           (logged [started WebAuthnPlatform; DeleteAuthenticator "abc"])).
  - reflexivity.
  - reflexivity.
  - reflexivity.
Defined.

Lemma completed_or_rolled_back_witness :
  "abc" = "abc"
  /\ filter is_delete
       (made_since idle
          (snd (registerAuthenticator (run (all_ok Email)) (register_args Email) idle)))
     = [].
Proof.
  apply (completed_or_rolled_back (run (all_ok Email)) (register_args Email) idle
           (pending Email) (logged [started Email])).
  reflexivity.
Defined.

Lemma unknown_type_is_rolled_back_witness :
  registerAuthenticator (run (all_ok OtherAuthType)) (register_args OtherAuthType) idle
  = (inl (Err AUTHENTICATION_FAILED "Authentication type not supported!"),
     logged [started OtherAuthType; DeleteAuthenticator "abc"])
  /\ made_since idle (logged [started OtherAuthType; DeleteAuthenticator "abc"])
     = [started OtherAuthType; DeleteAuthenticator "abc"].
Proof.
  apply (unknown_type_is_rolled_back (run (all_ok OtherAuthType))
           (register_args OtherAuthType) idle (pending OtherAuthType)
           (logged [started OtherAuthType]) (inr tt)
           (logged [started OtherAuthType; DeleteAuthenticator "abc"])).
  - reflexivity.
  - reflexivity.
  - reflexivity.
Defined.

Lemma totp_without_data_is_rolled_back_witness :
  exists msg,
    registerAuthenticator (run totp_without_data) (register_args Totp) idle
    = (inl (TypeError msg), logged [started Totp; DeleteAuthenticator "abc"])
    /\ made_since idle (logged [started Totp; DeleteAuthenticator "abc"])
       = [started Totp; DeleteAuthenticator "abc"].
Proof.
  apply (totp_without_data_is_rolled_back (run totp_without_data) (register_args Totp) idle
           no_data (logged [started Totp]) (inr tt)
           (logged [started Totp; DeleteAuthenticator "abc"])).
  - reflexivity.
  - reflexivity.
  - left. reflexivity.
  - reflexivity.
Defined.

Lemma auth_start_failure_is_surfaced_witness :
  getAuthToken (run offline) (token_args None) idle
  = (inl transport_error, logged [requested None])
  /\ made_since idle (logged [requested None]) = [requested None].
Proof.
  apply (auth_start_failure_is_surfaced (run offline) (token_args None) idle
           transport_error (logged [requested None])).
  reflexivity.
Defined.

Lemma auth_prepare_failure_is_surfaced_witness :
  getAuthToken (run (aborted WebAuthnPortable)) (token_args (Some WebAuthnPortable)) idle
  = (inl ceremony_error, logged [requested (Some WebAuthnPortable)])
  /\ made_since idle (logged [requested (Some WebAuthnPortable)])
     = [requested (Some WebAuthnPortable)].
Proof.
  apply (auth_prepare_failure_is_surfaced (run (aborted WebAuthnPortable))
           (token_args (Some WebAuthnPortable)) idle (challenge WebAuthnPortable)
           (logged [requested (Some WebAuthnPortable)]) ceremony_error
           (logged [requested (Some WebAuthnPortable)])).
  - reflexivity.
  - reflexivity.
Defined.

Lemma auth_complete_failure_is_surfaced_witness :
  getAuthToken (run (rejected Email)) (token_args None) idle
  = (inl (Err AUTHENTICATION_FAILED "Invalid code"),
     logged [requested None;
             CompleteAuthRequest
               {| cap_id := "req1"; cap_data := typed_code;
                  cap_email := Some "user@example.com" |}])
  /\ made_since idle
       (logged [requested None;
                CompleteAuthRequest
                  {| cap_id := "req1"; cap_data := typed_code;
                     cap_email := Some "user@example.com" |}])
     = [requested None;
        CompleteAuthRequest
          {| cap_id := "req1"; cap_data := typed_code;
             cap_email := Some "user@example.com" |}].
Proof.
  apply (auth_complete_failure_is_surfaced (run (rejected Email)) (token_args None) idle
           (challenge Email) (logged [requested None]) typed_code (logged [requested None])
           (Err AUTHENTICATION_FAILED "Invalid code")
           (logged [requested None;
                    CompleteAuthRequest
                      {| cap_id := "req1"; cap_data := typed_code;
                         cap_email := Some "user@example.com" |}])).
  - reflexivity.
  - reflexivity.
  - reflexivity.
  - reflexivity.
Defined.

Lemma token_requires_complete_witness :
  exists res s1 data s2 completed,
    app_api_startAuthRequest (run (all_ok Email))
      (auth_params (run (all_ok Email)) (token_args None) tt) idle = (inr res, s1)
    /\ _prepareCompleteAuthRequest (run (all_ok Email)) res s1 = (inr data, s2)
    /\ truthy data = true
    /\ app_api_completeAuthRequest (run (all_ok Email))
         (complete_params (run (all_ok Email)) (token_args None) tt res data) s2
       = (inr completed,
          logged [requested None;
                  CompleteAuthRequest
                    {| cap_id := "req1"; cap_data := typed_code;
                       cap_email := Some "user@example.com" |}])
    /\ "s" = sar_token res
    /\ made_since idle
         (logged [requested None;
                  CompleteAuthRequest
                    {| cap_id := "req1"; cap_data := typed_code;
                       cap_email := Some "user@example.com" |}])
       = [StartAuthRequest (auth_params (run (all_ok Email)) (token_args None) tt);
          CompleteAuthRequest
            (complete_params (run (all_ok Email)) (token_args None) tt res data)].
Proof.
  apply (token_requires_complete (run (all_ok Email)) (token_args None) idle "s"
           (logged [requested None;
                    CompleteAuthRequest
                      {| cap_id := "req1"; cap_data := typed_code;
                         cap_email := Some "user@example.com" |}])).
  reflexivity.
Defined.

Lemma falsy_answer_cancels_request_witness :
  getAuthToken (run (empty_answer Email)) (token_args (Some Email)) idle
  = (inl (Err AUTHENTICATION_FAILED "Request was canceled."),
     logged [requested (Some Email)]).
Proof.
  apply (falsy_answer_cancels_request (run (empty_answer Email)) (token_args (Some Email))
           idle (challenge Email) (logged [requested (Some Email)])
           (TextMessage
              "Please enter the confirmation code sent to your email address to proceed!")
           {| opt_title := "Email Authentication";
              opt_placeholder := "Enter Verification Code";
              opt_confirmLabel := "Submit";
              opt_type := "number";
              opt_pattern := "[0-9]*" |}
           (JsString "") tt).
  - reflexivity.
  - reflexivity.
  - reflexivity.
  - reflexivity.
Defined.

Lemma unknown_type_fails_request_witness :
  getAuthToken (run (all_ok OtherAuthType)) (token_args None) idle
  = (inl (Err AUTHENTICATION_FAILED "Authentication type not supported!"),
     logged [requested None])
  /\ made_since idle (logged [requested None]) = [requested None].
Proof.
  apply (unknown_type_fails_request (run (all_ok OtherAuthType)) (token_args None) idle
           (challenge OtherAuthType) (logged [requested None])).
  - reflexivity.
  - reflexivity.
Defined.

Lemma platform_registration_returns_start_id_witness :
  exists res s1,
    app_api_startRegisterAuthenticator (run (all_ok WebAuthnPlatform))
      {| srp_purposes := [Login]; srp_type := WebAuthnPlatform;
         srp_data := JsUndefined; srp_device := Some device0 |} idle
    = (inr res, s1)
    /\ "abc" = srr_id res
    /\ filter is_delete
         (made_since idle
            (logged [StartRegisterAuthenticator
                       {| srp_purposes := [Login]; srp_type := WebAuthnPlatform;
                          srp_data := JsUndefined; srp_device := Some device0 |};
                     completing (JsObject [("assertion", JsString "sig")])]))
       = [].
Proof.
  apply (platform_registration_returns_start_id (run (all_ok WebAuthnPlatform)) [Login]
           idle "abc"
           (logged [StartRegisterAuthenticator
                      {| srp_purposes := [Login]; srp_type := WebAuthnPlatform;
                         srp_data := JsUndefined; srp_device := Some device0 |};
                    completing (JsObject [("assertion", JsString "sig")])])).
  reflexivity.
Defined.


Lemma device_platform_joins_at_first_space_witness :
  exists info, getDeviceInfo chrome_on_mac = inr info /\ platform info = "MacOS".
Proof.
  apply (device_platform_joins_at_first_space chrome_on_mac
           {| os_name := Some "Mac OS"; os_version := Some "10.15.7";
              browser_name := Some "Chrome" |} "Mac" "OS").
  - reflexivity.
  - reflexivity.
  - reflexivity.
Defined.

Lemma device_info_has_a_locale_witness :
  locale {| platform := "WindowsPhone OS"; osVersion := ""; device_id := "";
            appVersion := ""; manufacturer := ""; model := ""; browser := "";
            userAgent := ""; locale := "en";
            description := "{0} Device:WindowsPhone OS" |} <> ""
  /\ (navigator_language windows_phone = None \/ navigator_language windows_phone = Some ""
      -> locale {| platform := "WindowsPhone OS"; osVersion := ""; device_id := "";
                   appVersion := ""; manufacturer := ""; model := ""; browser := "";
                   userAgent := ""; locale := "en";
                   description := "{0} Device:WindowsPhone OS" |} = "en")
  /\ "" = "" /\ "" = "" /\ "" = "".
Proof.
  apply (device_info_has_a_locale windows_phone
           {| platform := "WindowsPhone OS"; osVersion := ""; device_id := "";
              appVersion := ""; manufacturer := ""; model := ""; browser := "";
              userAgent := ""; locale := "en";
              description := "{0} Device:WindowsPhone OS" |}).
  reflexivity.
Defined.

Lemma device_description_matches_fields_witness :
  description {| platform := "MacOS"; osVersion := "10.15.7"; device_id := "";
                 appVersion := "4.0.0"; manufacturer := ""; model := "";
                 browser := "Chrome"; userAgent := "Mozilla/5.0"; locale := "en";
                 description := "{0} on {1}:Chrome,MacOS" |}
  = "{0} on {1}:Chrome,MacOS".
Proof.
  apply (device_description_matches_fields chrome_on_mac
           {| platform := "MacOS"; osVersion := "10.15.7"; device_id := "";
              appVersion := "4.0.0"; manufacturer := ""; model := "";
              browser := "Chrome"; userAgent := "Mozilla/5.0"; locale := "en";
              description := "{0} on {1}:Chrome,MacOS" |}).
  reflexivity.
Defined.

Lemma stopScanQR_releases_the_camera_witness :
  fst (stopScanQR scanning) = inr tt
  /\ Forall (fun t => nth_error (page_tracks (snd (stopScanQR scanning))) t = Some Ended)
            (scanned_tracks scanning)
  /\ scanned_tracks (snd (stopScanQR scanning)) = []
  /\ _qrCanvas (snd (stopScanQR scanning)) = Some {| style_display := "none" |}.
Proof.
  apply (stopScanQR_releases_the_camera scanning {| style_display := "block" |}).
  - reflexivity.
  - repeat constructor.
Defined.

Lemma stopScanQR_before_scanQR_throws_witness :
  (exists msg, fst (stopScanQR never_scanned) = inl (TypeError msg))
  /\ scanned_tracks (snd (stopScanQR never_scanned)) = []
  /\ page_tracks (snd (stopScanQR never_scanned))
     = fold_left track_stop (scanned_tracks never_scanned) (page_tracks never_scanned).
Proof.
  apply (stopScanQR_before_scanQR_throws never_scanned).
  reflexivity.
Defined.

Lemma stopScanQR_leaves_other_tracks_witness :
  nth_error (page_tracks (snd (stopScanQR scanning))) 2 = nth_error (page_tracks scanning) 2.
Proof.
  apply (stopScanQR_leaves_other_tracks scanning 2).
  intros [H | []]. discriminate H.
Defined.
